(** * Sugarcane NIR monitoring: trainer.py and backend/server.py

    A shallow embedding of the preprocessing pipeline, the cross-validated
    component search, the websocket tick loop and the report aggregation,
    followed by the properties established about them.

    Modelling conventions.
    - Python floats are idealised as exact rationals [Q]: rounding,
      overflow, signed zero, NaN and the infinities are outside the model,
      and so is the difference between a Python int and a float.  Two
      places where the code itself meets such values are written out with
      [option Q]: the initial [float('inf')] of the component scan, and
      the nan that stands for a failed fold or for the mean of no scores.
    - Python exceptions are values of [exn]; code that can raise returns a
      [result].
    - Library routines whose bodies are not part of the repository (the
      Savitzky-Golay row kernel, the square root, the fitted PLS and
      isolation-forest predictors, scikit-learn's cross validation) are
      fields of records that the definitions take as arguments; the shape
      checks and the data flow around them are written out.
    - Random draws and clock readings of one tick are supplied by the
      environment as a [tick_env]. *)

From Stdlib Require Import String Ascii List Bool Arith ZArith QArith Lia Lqa.
Import ListNotations.
Close Scope Q_scope.
Local Open Scope string_scope.
Set Warnings "-register-all".

(* ===================================================================== *)
(** ** Exceptions and the error monad *)
(* ===================================================================== *)

Inductive exc_class : Type :=
| ValueError
| TypeError
| AttributeError
| IndexError
| AxisError
| JSONDecodeError
| ZeroDivisionError
| WebSocketDisconnect.

Record exn : Type := mkExn { exc_type : exc_class; exc_msg : string }.

Definition class_name (c : exc_class) : string :=
  match c with
  | ValueError => "ValueError"
  | TypeError => "TypeError"
  | AttributeError => "AttributeError"
  | IndexError => "IndexError"
  | AxisError => "AxisError"
  | JSONDecodeError => "JSONDecodeError"
  | ZeroDivisionError => "ZeroDivisionError"
  | WebSocketDisconnect => "WebSocketDisconnect"
  end.

(** Method resolution order of each class, by name (what [isinstance] and
    an [except] clause consult). *)
Definition mro (c : exc_class) : list string :=
  match c with
  | ValueError => ["ValueError"; "Exception"; "BaseException"]
  | TypeError => ["TypeError"; "Exception"; "BaseException"]
  | AttributeError => ["AttributeError"; "Exception"; "BaseException"]
  | IndexError => ["IndexError"; "LookupError"; "Exception"; "BaseException"]
  | AxisError =>
      ["AxisError"; "ValueError"; "IndexError"; "LookupError";
       "Exception"; "BaseException"]
  | JSONDecodeError =>
      ["JSONDecodeError"; "ValueError"; "Exception"; "BaseException"]
  | ZeroDivisionError =>
      ["ZeroDivisionError"; "ArithmeticError"; "Exception"; "BaseException"]
  | WebSocketDisconnect =>
      ["WebSocketDisconnect"; "Exception"; "BaseException"]
  end.

Definition isinstance (e : exn) (cls : string) : bool :=
  existsb (String.eqb cls) (mro (exc_type e)).

Inductive result (A : Type) : Type :=
| Ok (a : A)
| Raise (e : exn).
Arguments Ok {A} a.
Arguments Raise {A} e.

Definition bind {A B : Type} (c : result A) (k : A -> result B) : result B :=
  match c with
  | Ok a => k a
  | Raise e => Raise e
  end.

Declare Scope result_scope.
Delimit Scope result_scope with result.
Notation "x <- c ;; k" := (bind c (fun x => k))
  (at level 61, c at next level, right associativity) : result_scope.
Local Open Scope result_scope.

Definition returned {A : Type} (r : result A) : bool :=
  match r with Ok _ => true | Raise _ => false end.

(* ===================================================================== *)
(** ** Numbers *)
(* ===================================================================== *)

Definition Qltb (x y : Q) : bool := negb (Qle_bool y x).

Definition Qsum (l : list Q) : Q := fold_left Qplus l 0%Q.

Definition Qlen {A : Type} (l : list A) : Q := inject_Z (Z.of_nat (length l)).

(* ===================================================================== *)
(** ** numpy arrays of rank 1 and 2 *)
(* ===================================================================== *)

(** [Arr2 n rows] has shape [(length rows, n)]. *)
Inductive ndarray : Type :=
| Arr1 (v : list Q)
| Arr2 (ncols : nat) (rows : list (list Q)).

Definition ndim (x : ndarray) : nat :=
  match x with Arr1 _ => 1 | Arr2 _ _ => 2 end.

(** [x.shape[-1]] *)
Definition shape_last (x : ndarray) : nat :=
  match x with Arr1 v => length v | Arr2 n _ => n end.

(** [x.size] *)
Definition nd_size (x : ndarray) : nat :=
  match x with Arr1 v => length v | Arr2 n rows => length rows * n end.

Definition rectangular (x : ndarray) : Prop :=
  match x with
  | Arr1 _ => True
  | Arr2 n rows => Forall (fun r => length r = n) rows
  end.

(** [v.reshape(1, -1)] on a rank-1 array. *)
Definition reshape_1 (v : list Q) : ndarray := Arr2 (length v) [v].

(** Row [i] of a rank-2 array. *)
Definition nd_row (x : ndarray) (i : nat) : option (list Q) :=
  match x with
  | Arr1 _ => None
  | Arr2 _ rows => nth_error rows i
  end.

Definition axis_error : exn :=
  mkExn AxisError "axis 1 is out of bounds for array of dimension 1".

Definition row_mean (r : list Q) : Q := (Qsum r / Qlen r)%Q.

(** [np.mean(x, axis=1, keepdims=True)] *)
Definition np_mean_axis1 (x : ndarray) : result ndarray :=
  match x with
  | Arr1 _ => Raise axis_error
  | Arr2 _ rows => Ok (Arr2 1 (map (fun r => [row_mean r]) rows))
  end.

(** numpy broadcasting of a binary operator, for ranks 1 and 2: a
    dimension of size 1 is stretched to the size of the other operand. *)
Definition stretch {A : Type} (n : nat) (l : list A) : list A :=
  match l with
  | [a] => repeat a n
  | _ => l
  end.

Definition broadcastable (a b : nat) : bool :=
  (a =? b)%nat || (a =? 1)%nat || (b =? 1)%nat.

Definition bshape (a b : nat) : nat := if (a =? 1)%nat then b else a.

Definition zip_with {A B C : Type} (f : A -> B -> C)
  (l1 : list A) (l2 : list B) : list C :=
  map (fun ab => f (fst ab) (snd ab)) (combine l1 l2).

Definition broadcast_error : exn :=
  mkExn ValueError "operands could not be broadcast together".

Definition broadcast_rows (op : Q -> Q -> Q)
  (n1 : nat) (r1 : list (list Q)) (n2 : nat) (r2 : list (list Q))
  : result (nat * list (list Q)) :=
  let m1 := length r1 in
  let m2 := length r2 in
  if broadcastable m1 m2 && broadcastable n1 n2 then
    let m := bshape m1 m2 in
    let n := bshape n1 n2 in
    Ok (n, zip_with (fun a b => zip_with op (stretch n a) (stretch n b))
             (stretch m r1) (stretch m r2))
  else Raise broadcast_error.

Definition nd_binop (op : Q -> Q -> Q) (x y : ndarray) : result ndarray :=
  match x, y with
  | Arr2 n1 r1, Arr2 n2 r2 =>
      nr <- broadcast_rows op n1 r1 n2 r2 ;; Ok (Arr2 (fst nr) (snd nr))
  | Arr1 v, Arr2 n2 r2 =>
      nr <- broadcast_rows op (length v) [v] n2 r2 ;;
      Ok (Arr2 (fst nr) (snd nr))
  | Arr2 n1 r1, Arr1 w =>
      nr <- broadcast_rows op n1 r1 (length w) [w] ;;
      Ok (Arr2 (fst nr) (snd nr))
  | Arr1 v, Arr1 w =>
      if broadcastable (length v) (length w) then
        let n := bshape (length v) (length w) in
        Ok (Arr1 (zip_with op (stretch n v) (stretch n w)))
      else Raise broadcast_error
  end.

(** An array combined with a Python scalar. *)
Definition nd_map (f : Q -> Q) (x : ndarray) : ndarray :=
  match x with
  | Arr1 v => Arr1 (map f v)
  | Arr2 n rows => Arr2 n (map (map f) rows)
  end.

(* ===================================================================== *)
(** ** trainer.py *)
(* ===================================================================== *)

(** The numeric kernels of scipy and numpy that the pipeline calls:
    [savgol_row w p d r] is what [scipy.signal.savgol_filter] computes
    along one row [r] that has at least [w] samples (window [w],
    polynomial order [p], derivative [d], mode 'interp');
    [np_sqrt] is [np.sqrt] on a scalar. *)
Record Kernels : Type := mkKernels {
  savgol_row : nat -> nat -> nat -> list Q -> list Q;
  np_sqrt : Q -> Q
}.

(** scikit-learn as used by [train_pls]: the type of fitted estimators,
    [cross_val_score(PLSRegression(n_components=i), X, y, cv=cv,
    scoring='neg_mean_squared_error')] and
    [PLSRegression(n_components=n).fit(X, y)].  Both can raise (too few
    samples for the folds, more components than the data allow, every
    fit of a cross validation failed).  A cross validation that returns
    gives one negated mean squared error per fold, [None] standing for
    the nan recorded for a fold whose fit failed. *)
Record KFold : Type := mkKFold {
  n_splits : nat;
  shuffle : bool;
  random_state : nat
}.

Record PLSRegression : Type := mkPLS { n_components : nat }.

Record Sklearn : Type := mkSklearn {
  fitted : Type;
  cross_val_score :
    PLSRegression -> ndarray -> list Q -> KFold -> result (list (option Q));
  pls_fit : PLSRegression -> ndarray -> list Q -> result fitted
}.

Module trainer.

Section Preprocess.
Variable K : Kernels.

Definition window_error : exn :=
  mkExn ValueError
    "If mode is 'interp', window_length must be less than or equal to the size of x.".

(** [scipy.signal.savgol_filter(x, window_length, polyorder, deriv)]
    with the defaults [axis=-1], [mode='interp']: the size check (the
    filtered axis must hold a window, and so must the array as a whole,
    which rules out a batch without rows), then every row filtered on its
    own.  For a batch without rows the library raises a [ValueError]
    whose text depends on its version; it carries the text of the size
    check here.  That the result for a row does not depend on the other
    rows of the batch holds in exact arithmetic; in floating point the
    last bits may differ between batches of different shapes. *)
Definition savgol_filter (x : ndarray) (window_length polyorder deriv : nat)
  : result ndarray :=
  if ((shape_last x <? window_length) || (nd_size x <? window_length))%nat
  then Raise window_error
  else Ok (match x with
           | Arr1 v => Arr1 (savgol_row K window_length polyorder deriv v)
           | Arr2 n rows =>
               Arr2 n (map (savgol_row K window_length polyorder deriv) rows)
           end).

Definition row_std (r : list Q) : Q :=
  let m := row_mean r in
  np_sqrt K (row_mean (map (fun v => ((v - m) * (v - m))%Q) r)).

(** [np.std(x, axis=1, keepdims=True)] *)
Definition np_std_axis1 (x : ndarray) : result ndarray :=
  match x with
  | Arr1 _ => Raise axis_error
  | Arr2 _ rows => Ok (Arr2 1 (map (fun r => [row_std r]) rows))
  end.

Definition preprocess_spectra (X : ndarray) : result ndarray :=
  X_sg <- savgol_filter X 15 2 1 ;;
  mean <- np_mean_axis1 X_sg ;;
  std <- np_std_axis1 X_sg ;;
  centred <- nd_binop Qminus X_sg mean ;;
  X_snv <- nd_binop Qdiv centred (nd_map (fun s => (s + 1e-8)%Q) std) ;;
  Ok X_snv.
End Preprocess.

Section Train.
Variable SK : Sklearn.

(** The entries of an array of scores when none of them is nan. *)
Fixpoint finite_scores (scores : list (option Q)) : option (list Q) :=
  match scores with
  | [] => Some []
  | None :: _ => None
  | Some q :: rest =>
      match finite_scores rest with
      | Some l => Some (q :: l)
      | None => None
      end
  end.

(** [np.ndarray.mean] of the fold scores: nan ([None]) when there is no
    score or when one of them is nan. *)
Definition scores_mean (scores : list (option Q)) : option Q :=
  match finite_scores scores with
  | Some (q :: l) => Some (Qsum (q :: l) / Qlen (q :: l))%Q
  | _ => None
  end.

(** [score < lowest_mse], where a [None] score is nan, for which every
    comparison is false, and a [None] bound is [float('inf')]. *)
Definition lt_lowest (score : option Q) (lowest_mse : option Q) : bool :=
  match score, lowest_mse with
  | None, _ => false
  | Some s, None => true
  | Some s, Some m => Qltb s m
  end.

Definition cv : KFold := mkKFold 5 true 42.

(** [-cross_val_score(pls, X_train, y_train, cv=cv, ...).mean()] *)
Definition cv_score (X_train : ndarray) (y_train : list Q) (i : nat)
  : result (option Q) :=
  scores <- cross_val_score SK (mkPLS i) X_train y_train cv ;;
  Ok (option_map Qopp (scores_mean scores)).

(** One iteration of the [for i in range(1, 15)] loop on the pair
    [(best_n, lowest_mse)]. *)
Definition scan_step (X_train : ndarray) (y_train : list Q)
  (st : nat * option Q) (i : nat) : result (nat * option Q) :=
  score <- cv_score X_train y_train i ;;
  Ok (if lt_lowest score (snd st) then (i, score) else st).

(** The loop over the remaining candidates; an exception ends it. *)
Fixpoint scan_from (X_train : ndarray) (y_train : list Q)
  (candidates : list nat) (st : nat * option Q) : result (nat * option Q) :=
  match candidates with
  | [] => Ok st
  | i :: rest =>
      st' <- scan_step X_train y_train st i ;;
      scan_from X_train y_train rest st'
  end.

Definition scan (X_train : ndarray) (y_train : list Q)
  : result (nat * option Q) :=
  scan_from X_train y_train (seq 1 14) (1%nat, None).

Definition train_pls (X_train : ndarray) (y_train : list Q)
  : result (fitted SK) :=
  st <- scan X_train y_train ;;
  let best_n := fst st in
  pls_fit SK (mkPLS best_n) X_train y_train.
End Train.

End trainer.

(* ===================================================================== *)
(** ** JSON values and [json.loads] *)
(* ===================================================================== *)

(** Python values that [json.loads] produces.  Integers and floats are
    both carried as rationals, and strings as the bytes of their UTF-8
    form.  The non-standard literals NaN, Infinity and -Infinity, which
    Python reads as floats that are not finite, have no value here: the
    decoder below does not read them, and statements about texts it
    refuses are restricted to texts that do not mention them
    ([finite_literals]). *)
Inductive json : Type :=
| JNull
| JBool (b : bool)
| JNumber (q : Q)
| JString (s : string)
| JArray (items : list json)
| JObject (members : list (string * json)).

Module JsonText.

(** The double quote character. *)
Definition dquote : ascii := ascii_of_nat 34.

Definition is_ws (c : ascii) : bool :=
  match nat_of_ascii c with
  | 32 | 9 | 10 | 13 => true
  | _ => false
  end.

Fixpoint skip_ws (l : list ascii) : list ascii :=
  match l with
  | c :: rest => if is_ws c then skip_ws rest else l
  | [] => []
  end.

Definition digit_val (c : ascii) : option Z :=
  let n := nat_of_ascii c in
  if ((48 <=? n) && (n <=? 57))%nat then Some (Z.of_nat (n - 48)) else None.

(** Longest prefix of digits: its value, its length, and the rest. *)
Fixpoint digits (acc : Z) (len : nat) (l : list ascii)
  : Z * nat * list ascii :=
  match l with
  | c :: rest =>
      match digit_val c with
      | Some d => digits (10 * acc + d) (S len) rest
      | None => (acc, len, l)
      end
  | [] => (acc, len, [])
  end.

Definition pow10 (e : Z) : Q :=
  if (0 <=? e)%Z then inject_Z (10 ^ e)
  else (1 # Z.to_pos (10 ^ (- e)))%Q.

(** A JSON number after its sign: an integer part (a lone zero, or
    digits not starting with zero), an optional fraction (a dot and at
    least one digit) and an optional exponent. *)
Definition number_body (l : list ascii) : option (Q * list ascii) :=
  match l with
  | [] => None
  | c0 :: after0 =>
      match digit_val c0 with
      | None => None
      | Some d0 =>
          let '(ip, _, r1) :=
            if (d0 =? 0)%Z then (0%Z, 1%nat, after0) else digits 0 0 l in
          let '(mant, r2) :=
            match r1 with
            | "."%char :: fr =>
                let '(fv, fl, r) := digits 0 0 fr in
                match fl with
                | O => (inject_Z ip, r1)
                | _ => ((inject_Z ip + inject_Z fv * pow10 (- Z.of_nat fl))%Q, r)
                end
            | _ => (inject_Z ip, r1)
            end in
          let exponent (neg : bool) (er : list ascii) :=
            let '(ev, el, r) := digits 0 0 er in
            match el with
            | O => None
            | _ => Some ((mant * pow10 (if neg then - ev else ev))%Q, r)
            end in
          let with_exp :=
            match r2 with
            | c :: er =>
                if (Ascii.eqb c "e" || Ascii.eqb c "E")%bool then
                  match er with
                  | "-"%char :: er' => exponent true er'
                  | "+"%char :: er' => exponent false er'
                  | _ => exponent false er
                  end
                else None
            | [] => None
            end in
          match with_exp with
          | Some res => Some res
          | None => Some (mant, r2)
          end
      end
  end.

Definition hex_val (c : ascii) : option N :=
  let n := N_of_ascii c in
  if ((48 <=? n) && (n <=? 57))%N then Some (n - 48)%N
  else if ((97 <=? n) && (n <=? 102))%N then Some (n - 87)%N
  else if ((65 <=? n) && (n <=? 70))%N then Some (n - 55)%N
  else None.

(** The code unit written by four hexadecimal digits. *)
Definition hex4 (a b c d : ascii) : option N :=
  match hex_val a, hex_val b, hex_val c, hex_val d with
  | Some x, Some y, Some z, Some w => Some (((x * 16 + y) * 16 + z) * 16 + w)%N
  | _, _, _, _ => None
  end.

(** A code point as the bytes of its UTF-8 form (a lone surrogate is
    written out like any other three-byte code point). *)
Definition utf8 (cp : N) : string :=
  let byte (n : N) := ascii_of_N n in
  if (cp <? 128)%N then String (byte cp) EmptyString
  else if (cp <? 2048)%N then
    String (byte (192 + cp / 64)%N)
      (String (byte (128 + cp mod 64)%N) EmptyString)
  else if (cp <? 65536)%N then
    String (byte (224 + cp / 4096)%N)
      (String (byte (128 + (cp / 64) mod 64)%N)
         (String (byte (128 + cp mod 64)%N) EmptyString))
  else
    String (byte (240 + cp / 262144)%N)
      (String (byte (128 + (cp / 4096) mod 64)%N)
         (String (byte (128 + (cp / 64) mod 64)%N)
            (String (byte (128 + cp mod 64)%N) EmptyString))).

Definition high_surrogate (u : N) : bool := ((55296 <=? u) && (u <=? 56319))%N.
Definition low_surrogate (u : N) : bool := ((56320 <=? u) && (u <=? 57343))%N.

Definition prepend (p : string) (r : option (string * list ascii))
  : option (string * list ascii) :=
  match r with
  | Some (s, rest) => Some ((p ++ s)%string, rest)
  | None => None
  end.

(** The characters of a string literal after its opening quote.  An
    escape is a backslash followed by one of the eight simple escape
    characters or by [u] and four hexadecimal digits; a high surrogate
    followed by a low one makes one code point. *)
Fixpoint string_body (l : list ascii) : option (string * list ascii) :=
  match l with
  | [] => None
  | c :: rest =>
      if Ascii.eqb c dquote then Some (EmptyString, rest)
      else if Ascii.eqb c "\" then
        match rest with
        | e :: rest' =>
            if Ascii.eqb e "u" then
              match rest' with
              | a :: b :: c1 :: d :: rest4 =>
                  match hex4 a b c1 d with
                  | None => None
                  | Some hi =>
                      match rest4 with
                      | bs :: u :: a2 :: b2 :: c2 :: d2 :: rest10 =>
                          match hex4 a2 b2 c2 d2 with
                          | Some lo =>
                              if (Ascii.eqb bs "\" && Ascii.eqb u "u"
                                  && high_surrogate hi && low_surrogate lo)%bool
                              then
                                prepend
                                  (utf8 (65536 + (hi - 55296) * 1024
                                         + (lo - 56320))%N)
                                  (string_body rest10)
                              else prepend (utf8 hi) (string_body rest4)
                          | None => prepend (utf8 hi) (string_body rest4)
                          end
                      | _ => prepend (utf8 hi) (string_body rest4)
                      end
                  end
              | _ => None
              end
            else
              let unescaped :=
                match nat_of_ascii e with
                | 34 => Some dquote
                | 92 => Some "\"%char
                | 47 => Some "/"%char
                | 98 => Some (ascii_of_nat 8)
                | 102 => Some (ascii_of_nat 12)
                | 110 => Some (ascii_of_nat 10)
                | 114 => Some (ascii_of_nat 13)
                | 116 => Some (ascii_of_nat 9)
                | _ => None
                end in
              match unescaped, string_body rest' with
              | Some u, Some (s, r) => Some (String u s, r)
              | _, _ => None
              end
        | [] => None
        end
      else if (nat_of_ascii c <? 32)%nat then None
      else
        match string_body rest with
        | Some (s, r) => Some (String c s, r)
        | None => None
        end
  end.

Definition literal (word : string) (l : list ascii) : option (list ascii) :=
  let w := list_ascii_of_string word in
  if list_eq_dec ascii_dec (firstn (length w) l) w
  then Some (skipn (length w) l) else None.

(** Recursive descent; [fuel] bounds the nesting of calls. *)
Fixpoint value (fuel : nat) (l : list ascii) : option (json * list ascii) :=
  match fuel with
  | O => None
  | S fuel' =>
      let fix items (n : nat) (l : list ascii) {struct n}
        : option (list json * list ascii) :=
        match n with
        | O => None
        | S n' =>
            match value fuel' (skip_ws l) with
            | None => None
            | Some (v, r) =>
                match skip_ws r with
                | ","%char :: r' =>
                    match items n' r' with
                    | Some (vs, r'') => Some (v :: vs, r'')
                    | None => None
                    end
                | "]"%char :: r' => Some ([v], r')
                | _ => None
                end
            end
        end in
      let fix members (n : nat) (l : list ascii) {struct n}
        : option (list (string * json) * list ascii) :=
        match n with
        | O => None
        | S n' =>
            match skip_ws l with
            | q :: r0 =>
                match (if Ascii.eqb q dquote then string_body r0 else None) with
                | None => None
                | Some (k, r1) =>
                    match skip_ws r1 with
                    | ":"%char :: r2 =>
                        match value fuel' (skip_ws r2) with
                        | None => None
                        | Some (v, r3) =>
                            match skip_ws r3 with
                            | ","%char :: r4 =>
                                match members n' r4 with
                                | Some (kvs, r5) => Some ((k, v) :: kvs, r5)
                                | None => None
                                end
                            | "}"%char :: r4 => Some ([(k, v)], r4)
                            | _ => None
                            end
                        end
                    | _ => None
                    end
                end
            | [] => None
            end
        end in
      match l with
      | "n"%char :: _ =>
          match literal "null" l with Some r => Some (JNull, r) | None => None end
      | "t"%char :: _ =>
          match literal "true" l with
          | Some r => Some (JBool true, r) | None => None end
      | "f"%char :: _ =>
          match literal "false" l with
          | Some r => Some (JBool false, r) | None => None end
      | "["%char :: r =>
          match skip_ws r with
          | "]"%char :: r' => Some (JArray [], r')
          | _ =>
              match items (length l) r with
              | Some (vs, r') => Some (JArray vs, r')
              | None => None
              end
          end
      | "{"%char :: r =>
          match skip_ws r with
          | "}"%char :: r' => Some (JObject [], r')
          | _ =>
              match members (length l) r with
              | Some (kvs, r') => Some (JObject kvs, r')
              | None => None
              end
          end
      | "-"%char :: r =>
          match number_body r with
          | Some (q, r') => Some (JNumber (- q), r')
          | None => None
          end
      | c :: r =>
          if Ascii.eqb c dquote then
            match string_body r with
            | Some (s, r') => Some (JString s, r')
            | None => None
            end
          else
            match number_body l with
            | Some (q, r') => Some (JNumber q, r')
            | None => None
            end
      | [] => None
      end
  end.

End JsonText.

Definition decode_error (msg : string) : exn := mkExn JSONDecodeError msg.

(** [quoted s] is the text of [s] between double quotes, for writing
    message texts. *)
Definition quoted (s : string) : string :=
  String JsonText.dquote (s ++ String JsonText.dquote EmptyString).

(** [data] mentions neither of the literals for floats that are not
    finite ("-Infinity" contains "Infinity"). *)
Definition finite_literals (data : string) : bool :=
  match String.index 0 "NaN" data, String.index 0 "Infinity" data with
  | None, None => true
  | _, _ => false
  end.

(** [json.loads(data)].  The message of a decoding error is kept to two
    texts, "Expecting value" when no value could be read and "Extra data"
    when text follows the value.  Python's limits on the nesting depth
    and on the digits of an integer are outside the model; statements
    that depend on them are restricted to short texts. *)
Definition json_loads (data : string) : result json :=
  let l := list_ascii_of_string data in
  match JsonText.value (S (length l)) (JsonText.skip_ws l) with
  | None => Raise (decode_error "Expecting value")
  | Some (v, rest) =>
      match JsonText.skip_ws rest with
      | [] => Ok v
      | _ :: _ => Raise (decode_error "Extra data")
      end
  end.

(* ===================================================================== *)
(** ** backend/server.py *)
(* ===================================================================== *)

(** What the process loads at start-up: the fitted PLS model and the
    isolation forest (through their [predict] methods), and the pool
    [X_test] / [y_test] replayed by the simulation. *)
Record Artifacts : Type := mkArtifacts {
  pls_predict : ndarray -> ndarray;
  iso_predict : ndarray -> list Z;
  X_test : list (list Q);
  y_test : list Q
}.

(** The random draws and clock readings consumed by one tick:
    [std_normal i] is the i-th standard normal deviate behind
    [np.random.normal], [unit_uniform] the deviate in [0, 1) behind
    [np.random.uniform], and [clock k] the k-th reading of [time.time()]. *)
Record tick_env : Type := mkEnv {
  std_normal : nat -> Q;
  unit_uniform : Q;
  clock : nat -> Q
}.

Module Payload.
(** The dict serialised by [json.dumps] and sent to the client. *)
Record t : Type := mk {
  timestamp : Q;
  actual_pol : Q;
  predicted_pol : Q;
  inference_ms : Q;
  noisy_spectrum : list Q;
  alert : bool;
  anomaly : bool
}.
End Payload.

Module server.

(** *** Python operators on decoded JSON values *)

(** Last binding of [key]: a repeated key overwrites the earlier one. *)
Fixpoint dict_lookup (key : string) (members : list (string * json))
  : option json :=
  match members with
  | [] => None
  | (k, v) :: rest =>
      match dict_lookup key rest with
      | Some w => Some w
      | None => if String.eqb k key then Some v else None
      end
  end.

(** [config.get(key, default)] *)
Definition get (config : json) (key : string) (default : json) : result json :=
  match config with
  | JObject members =>
      Ok (match dict_lookup key members with
          | Some v => v
          | None => default
          end)
  | _ => Raise (mkExn AttributeError "object has no attribute 'get'")
  end.

(** The numeric value of a Python object in arithmetic and ordering with
    a float ([bool] is a subclass of [int]). *)
Definition as_number (v : json) : option Q :=
  match v with
  | JNumber q => Some q
  | JBool true => Some 1%Q
  | JBool false => Some 0%Q
  | _ => None
  end.

(** [v / d] for a float [d], as an exact quotient (the overflow of an
    int too large for a float is outside the model). *)
Definition truediv (v : json) (d : Q) : result Q :=
  match as_number v with
  | Some q =>
      if Qeq_bool d 0 then Raise (mkExn ZeroDivisionError "float division by zero")
      else Ok (q / d)%Q
  | None => Raise (mkExn TypeError "unsupported operand type(s) for /")
  end.

(** [x < v] for a float [x] *)
Definition float_lt (x : Q) (v : json) : result bool :=
  match as_number v with
  | Some q => Ok (Qltb x q)
  | None => Raise (mkExn TypeError "'<' not supported between instances")
  end.

(** [seq[i]] for a non-negative index *)
Definition getitem {A : Type} (l : list A) (i : nat) : result A :=
  match nth_error l i with
  | Some a => Ok a
  | None => Raise (mkExn IndexError "index out of bounds")
  end.

(** [a % b] on non-negative integers *)
Definition py_mod (a b : nat) : result nat :=
  match b with
  | O => Raise (mkExn ZeroDivisionError "integer modulo by zero")
  | S _ => Ok (a mod b)
  end.

(** *** numpy.random *)

Definition scale_error : exn := mkExn ValueError "scale < 0".

(** [np.random.normal(loc, scale, size)]: a negative scale is refused
    (a zero scale has no sign here, so the refusal of -0.0 is outside the
    model). *)
Definition np_random_normal (env : tick_env) (loc scale : Q) (size : nat)
  : result (list Q) :=
  if Qltb scale 0 then Raise scale_error
  else Ok (map (fun i => (loc + scale * std_normal env i)%Q) (seq 0 size)).

(** [np.random.uniform(low, high)] *)
Definition np_random_uniform (env : tick_env) (low high : Q) : Q :=
  (low + (high - low) * unit_uniform env)%Q.

Definition add_industrial_noise (env : tick_env)
  (spectrum : list Q) (noise_level : Q) : result (list Q) :=
  noise <- np_random_normal env 0 noise_level (length spectrum) ;;
  let baseline_drift := np_random_uniform env (-0.01) 0.01 in
  Ok (zip_with (fun s n => (s * (1 + n) + baseline_drift)%Q) spectrum noise).

(** *** ConnectionManager *)

Record ConnectionManager : Type := mkManager {
  active_connections : list nat
}.

Definition connect (m : ConnectionManager) (websocket : nat)
  : ConnectionManager :=
  mkManager (active_connections m ++ [websocket]).

(** [list.remove]: the first occurrence goes. *)
Fixpoint list_remove (x : nat) (l : list nat) : list nat :=
  match l with
  | [] => []
  | y :: rest => if (x =? y)%nat then rest else y :: list_remove x rest
  end.

Definition disconnect (m : ConnectionManager) (websocket : nat)
  : ConnectionManager :=
  mkManager (list_remove websocket (active_connections m)).

(** *** The websocket tick loop *)

Section Endpoint.
Variable K : Kernels.
Variable A : Artifacts.

(** [float(np.squeeze(a))] *)
Definition squeeze_float (a : ndarray) : result Q :=
  match a with
  | Arr1 [v] => Ok v
  | Arr2 _ [[v]] => Ok v
  | _ => Raise (mkExn TypeError
                  "only length-1 arrays can be converted to Python scalars")
  end.

(** The body of the [while True] loop after [receive_text] returned
    [data], with cursor [idx]: the payload sent and the next cursor. *)
Definition tick (idx : nat) (data : string) (env : tick_env)
  : result (Payload.t * nat) :=
  config <- json_loads data ;;
  noise_pct <- get config "noiseLevel" (JNumber 2.0) ;;
  raw_spectrum <- getitem (X_test A) idx ;;
  actual_pol <- getitem (y_test A) idx ;;
  noise_level <- truediv noise_pct 100.0 ;;
  noisy_spectrum <- add_industrial_noise env raw_spectrum noise_level ;;
  X_live_prep <- trainer.preprocess_spectra K (reshape_1 noisy_spectrum) ;;
  let start_time := clock env 0 in
  pred_pol <- squeeze_float (pls_predict A X_live_prep) ;;
  label <- getitem (iso_predict A X_live_prep) 0 ;;
  let is_anomaly := (label =? -1)%Z in
  let inference_ms := ((clock env 1 - start_time) * 1000)%Q in
  threshold <- get config "threshold" (JNumber 13.0) ;;
  alert <- float_lt pred_pol threshold ;;
  let payload :=
    Payload.mk (clock env 2) actual_pol pred_pol inference_ms
               noisy_spectrum alert is_anomaly in
  idx' <- py_mod (idx + 1) (length (X_test A)) ;;
  Ok (payload, idx').

(** What the connection delivers to [receive_text]: a text frame
    (together with the draws and clock readings of the tick it starts),
    or the disconnect that makes it raise [WebSocketDisconnect]. *)
Inductive event : Type :=
| Receive (data : string) (env : tick_env)
| Disconnected.

Inductive status : Type :=
| Active (idx : nat)      (* suspended in [receive_text] *)
| Closed                  (* [except WebSocketDisconnect] ran *)
| Crashed (e : exn).      (* the exception left the handler *)

(** One completed tick: the cursor it read and the payload it sent. *)
Record tick_record : Type := mkTick {
  cursor : nat;
  sent : Payload.t
}.

Record outcome : Type := mkOutcome {
  ticks : list tick_record;
  final : status;
  manager : ConnectionManager
}.

(** [try: while True: ...  except WebSocketDisconnect: ...] *)
Fixpoint loop (m : ConnectionManager) (websocket : nat) (idx : nat)
  (events : list event) : outcome :=
  match events with
  | [] => mkOutcome [] (Active idx) m
  | Disconnected :: _ => mkOutcome [] Closed (disconnect m websocket)
  | Receive data env :: rest =>
      match tick idx data env with
      | Ok (payload, idx') =>
          let o := loop m websocket idx' rest in
          mkOutcome (mkTick idx payload :: ticks o) (final o) (manager o)
      | Raise e =>
          if isinstance e "WebSocketDisconnect"
          then mkOutcome [] Closed (disconnect m websocket)
          else mkOutcome [] (Crashed e) m
      end
  end.

Definition websocket_endpoint (m : ConnectionManager) (websocket : nat)
  (events : list event) : outcome :=
  loop (connect m websocket) websocket 0 events.
End Endpoint.

(** *** Report aggregation *)

Record ReportData : Type := mkReportData {
  timestamp : list Q;
  predicted_pol : list Q;
  actual_pol : list Q
}.

(** The three figures drawn on the report, before text formatting. *)
Record report_figures : Type := mkFigures {
  total_samples : nat;
  avg_pol : Q;
  breaches : nat
}.

(** [a / b] on numbers, as an exact quotient (rounding is outside the
    model). *)
Definition py_div (a b : Q) : result Q :=
  if Qeq_bool b 0 then Raise (mkExn ZeroDivisionError "division by zero")
  else Ok (a / b)%Q.

Definition generate_report (data : ReportData) : result report_figures :=
  avg_pol <-
    match predicted_pol data with
    | [] => Ok 0%Q
    | _ :: _ => py_div (Qsum (predicted_pol data)) (Qlen (predicted_pol data))
    end ;;
  let threshold := 13.0%Q in
  let breaches :=
    length (filter (fun p => Qltb p threshold) (predicted_pol data)) in
  Ok (mkFigures (length (predicted_pol data)) avg_pol breaches).

End server.

(* ===================================================================== *)
(** ** Reference instances *)
(* ===================================================================== *)

(** Exact-arithmetic instances of the library kernels, and a small pool,
    on which the model is run in the examples below. *)
Module Ideal.

(** Least-squares quadratic through a window [win] of odd length,
    abscissae centred on the middle sample: the slope of the fitted
    polynomial at offset [t] from the centre. *)
Definition quadratic_slope (win : list Q) (t : Z) : Q :=
  let h := Z.of_nat (length win / 2) in
  let ts := map (fun j => inject_Z (Z.of_nat j - h)) (seq 0 (length win)) in
  let S0 := Qlen win in
  let S2 := Qsum (map (fun u => u * u)%Q ts) in
  let S4 := Qsum (map (fun u => u * u * u * u)%Q ts) in
  let T0 := Qsum win in
  let T1 := Qsum (zip_with Qmult ts win) in
  let T2 := Qsum (zip_with (fun u x => u * u * x)%Q ts win) in
  let a1 := (T1 / S2)%Q in
  let a2 := ((S0 * T2 - S2 * T0) / (S0 * S4 - S2 * S2))%Q in
  Qred (a1 + 2 * a2 * inject_Z t)%Q.

(** Savitzky-Golay, polynomial order 2, first derivative, mode 'interp':
    sample [i] takes the slope of the quadratic fitted to the window
    centred on it, or, within half a window of either end, to the first
    or last [w] samples. *)
Definition savgol_order2_deriv1 (w : nat) (r : list Q) : list Q :=
  let n := length r in
  let h := (w / 2)%nat in
  map (fun i =>
         let s := Nat.min (i - h) (n - w) in
         quadratic_slope (firstn w (skipn s r))
                         (Z.of_nat i - Z.of_nat s - Z.of_nat h))
      (seq 0 n).

(** Square root to eight decimal places. *)
Definition sqrt8 (q : Q) : Q :=
  let q' := Qred q in
  if Qle_bool q' 0 then 0%Q
  else
    let n := Qnum q' in
    let d := Zpos (Qden q') in
    Qred (Qmake (Z.sqrt (n * d * 10 ^ 16)) (Z.to_pos (d * 10 ^ 8))).

Definition kernels : Kernels :=
  mkKernels (fun w _ _ r => savgol_order2_deriv1 w r) sqrt8.

(** A fitted linear model with intercept 13 and zero coefficients. *)
Definition flat_pls (x : ndarray) : ndarray :=
  match x with
  | Arr1 _ => Arr1 [13.0%Q]
  | Arr2 _ rows => Arr2 1 (map (fun _ => [13.0%Q]) rows)
  end.

(** A detector that labels every row an inlier. *)
Definition all_inliers (x : ndarray) : list Z :=
  match x with
  | Arr1 _ => []
  | Arr2 _ rows => map (fun _ => 1%Z) rows
  end.

(** Spectrum [k] of the pool: fifteen samples [(k + 1) + j * j / 10]. *)
Definition spectrum (k : nat) : list Q :=
  map (fun j => Qred (inject_Z (Z.of_nat (k + 1))
                      + inject_Z (Z.of_nat (j * j)) / 10)%Q)
      (seq 0 15).

Definition pool5 : Artifacts :=
  mkArtifacts flat_pls all_inliers
              (map spectrum (seq 0 5))
              [10%Q; 11%Q; 12%Q; 13%Q; 14%Q].

(** Every normal deviate 1, the uniform deviate 1/2 (zero drift), the
    clock reading 0, 1, 2 seconds. *)
Definition env : tick_env :=
  mkEnv (fun _ => 1%Q) (1 # 2)%Q (fun k => inject_Z (Z.of_nat k)).

Definition short_batch : ndarray :=
  Arr2 10 [map (fun j => inject_Z (Z.of_nat j)) (seq 0 10)].

(** Message texts: one that supplies both fields, and one that spells
    out the documented defaults. *)
Definition msg_supplied : string :=
  "{" ++ quoted "noiseLevel" ++ ": 50, " ++ quoted "threshold" ++ ": 20}".

Definition msg_defaults : string :=
  "{" ++ quoted "noiseLevel" ++ ": 2.0, " ++ quoted "threshold" ++ ": 13.0}".

End Ideal.

(** The message [members] with the documented default written in for
    each of the two keys it omits. *)
Definition fill_defaults (members : list (string * json))
  : list (string * json) :=
  (match server.dict_lookup "noiseLevel" members with
   | None => [("noiseLevel", JNumber 2.0)]
   | Some _ => []
   end)
  ++ (match server.dict_lookup "threshold" members with
      | None => [("threshold", JNumber 13.0)]
      | Some _ => []
      end)
  ++ members.

(** The batch/single equivalence as the specification words it: the only
    row of the preprocessed one-row batch is the preprocessed spectrum. *)
Definition batch_single_equivalence (K : Kernels) (S : list Q) : Prop :=
  exists r : list Q,
    (x <- trainer.preprocess_spectra K (reshape_1 S) ;;
     match nd_row x 0 with
     | Some r0 => Ok r0
     | None => Raise (mkExn IndexError "index 0 is out of bounds")
     end) = Ok r /\
    trainer.preprocess_spectra K (Arr1 S) = Ok (Arr1 r).

(** What [preprocess_spectra] makes of one row of a batch of width [n]. *)
Definition preprocess_row (K : Kernels) (n : nat) (r : list Q) : list Q :=
  let sg := savgol_row K 15 2 1 r in
  let centred :=
    zip_with Qminus (stretch n sg) (stretch n [row_mean sg]) in
  zip_with Qdiv (stretch n centred)
           (stretch n [(trainer.row_std K sg + 1e-8)%Q]).

(** The fold scores that a cross validation returns when the mean
    squared errors of its folds are [mse] (the scoring is the negated
    error), and the average of five fold errors. *)
Definition negated (mse : list Q) : list (option Q) :=
  map (fun e => Some (- e)%Q) mse.

Definition average5 (mse : list Q) : Q := (Qsum mse / 5)%Q.

(** The number of entries of [l] strictly below [bound]. *)
Fixpoint count_below (bound : Q) (l : list Q) : nat :=
  match l with
  | [] => 0
  | p :: rest =>
      (if Qlt_le_dec p bound then 1 else 0) + count_below bound rest
  end.

(** The score that the scan sees for a candidate, nan when the cross
    validation did not return. *)
Definition seen_score (SK : Sklearn) (X : ndarray) (y : list Q) (i : nat)
  : option Q :=
  match trainer.cv_score SK X y i with
  | Ok score => score
  | Raise _ => None
  end.

(** The loop body of the component scan, for a given scoring of the
    candidates ([None] for a score that is nan). *)
Definition scan_by (score : nat -> option Q) (st : nat * option Q) (i : nat)
  : nat * option Q :=
  if trainer.lt_lowest (score i) (snd st) then (i, score i) else st.

(** [r] is an exception that an [except cls] clause would catch. *)
Definition fails_with {A : Type} (r : result A) (cls : string) : Prop :=
  exists e : exn, r = Raise e /\ isinstance e cls = true.

(* ===================================================================== *)
(** ** The rest of trainer.py: column selection and the saved artifacts *)
(* ===================================================================== *)

Module load_data.

Definition is_digit_char (c : ascii) : bool :=
  ((48 <=? nat_of_ascii c) && (nat_of_ascii c <=? 57))%nat.

(** [s.isdigit()] on ASCII text: at least one character, all of them
    decimal digits. *)
Definition isdigit (s : string) : bool :=
  match s with
  | EmptyString => false
  | String _ _ => forallb is_digit_char (list_ascii_of_string s)
  end.

(** [s.replace('.', '', 1)]: the first dot, if any, is dropped. *)
Fixpoint replace_dot_once (s : string) : string :=
  match s with
  | EmptyString => EmptyString
  | String c rest =>
      if Ascii.eqb c "." then rest else String c (replace_dot_once rest)
  end.

(** The test of the list comprehension that picks the feature columns:
    [col.startswith('amplitude') or col.replace('.','',1).isdigit()]. *)
Definition is_wavelength_col (col : string) : bool :=
  String.prefix "amplitude" col || isdigit (replace_dot_once col).

Definition wavelength_cols (columns : list string) : list string :=
  filter is_wavelength_col columns.

End load_data.

(** [len(x)]: the size of the first axis. *)
Definition nd_len (x : ndarray) : nat :=
  match x with
  | Arr1 v => length v
  | Arr2 _ rows => length rows
  end.

(** [x[k:]] on the first axis. *)
Definition nd_from (k : nat) (x : ndarray) : ndarray :=
  match x with
  | Arr1 v => Arr1 (skipn k v)
  | Arr2 n rows => Arr2 n (skipn k rows)
  end.

(** A stand-in for scikit-learn with the library's error behaviour and a
    made-up error curve.  The five folds of [n] samples hold [n / 5]
    samples each, one more in the first [n mod 5]; a partial least
    squares fit on [m] samples of [p] features fails when asked for more
    than [min m p] components.  The cross validation raises [ValueError]
    when [X] and [y] differ in length, when there are fewer samples than
    folds, and when the fit failed in every fold; otherwise a fold whose
    fit failed scores nan and every other fold scores minus
    [|n_components mod 4 - 3|] (so 3, 7 and 11 components tie at zero).
    A fitted model is stood for by its number of components, and the
    texts of the exceptions are abridged. *)
Definition fold_train_size (n k fold : nat) : nat :=
  n - (n / k + (if (fold <? n mod k)%nat then 1 else 0)).

Definition reference_error (est : PLSRegression) : Q :=
  inject_Z (Z.abs (Z.of_nat (n_components est mod 4) - 3)).

Definition inconsistent_samples_error : exn :=
  mkExn ValueError
    "Found input variables with inconsistent numbers of samples".

Definition too_few_samples_error : exn :=
  mkExn ValueError
    "Cannot have number of splits n_splits greater than the number of samples".

Definition all_fits_failed_error : exn :=
  mkExn ValueError "All the 5 fits failed.".

Definition components_bound_error : exn :=
  mkExn ValueError "`n_components` upper bound exceeded".

Definition reference_cross_val_score (est : PLSRegression) (X : ndarray)
  (y : list Q) (cv : KFold) : result (list (option Q)) :=
  let n := nd_len X in
  let p := shape_last X in
  if negb (length y =? n)%nat then Raise inconsistent_samples_error
  else if (n <? n_splits cv)%nat then Raise too_few_samples_error
  else
    let scores :=
      map (fun fold =>
             if (n_components est
                 <=? Nat.min (fold_train_size n (n_splits cv) fold) p)%nat
             then Some (- reference_error est)%Q
             else None)
          (seq 0 (n_splits cv)) in
    if forallb (fun sc => match sc with None => true | Some _ => false end)
               scores
    then Raise all_fits_failed_error
    else Ok scores.

Definition reference_fit (est : PLSRegression) (X : ndarray) (y : list Q)
  : result nat :=
  if negb (length y =? nd_len X)%nat then Raise inconsistent_samples_error
  else if (n_components est <=? Nat.min (nd_len X) (shape_last X))%nat
  then Ok (n_components est)
  else Raise components_bound_error.

Definition reference_sklearn : Sklearn :=
  mkSklearn nat reference_cross_val_score reference_fit.

(** Training sets for the examples: [rows] spectra of the reference
    pool's kind with labels 10, 11, ..., and 40 rows of 10 zeros. *)
Definition training_rows (rows : nat) : ndarray :=
  Arr2 15 (map Ideal.spectrum (seq 0 rows)).

Definition training_labels (rows : nat) : list Q :=
  map (fun k => inject_Z (Z.of_nat (10 + k))) (seq 0 rows).

Definition narrow_rows : ndarray := Arr2 10 (repeat (repeat 0%Q 10) 40).

(** The four results of [train_test_split(X_prep, y, test_size=0.2,
    random_state=42)]. *)
Record Split : Type := mkSplit {
  split_X_train : ndarray;
  split_X_test : ndarray;
  split_y_train : list Q;
  split_y_test : list Q
}.

(** What [main] leaves on disk: pls_model.pkl, X_test_raw.npy and
    y_test.npy. *)
Record Saved (M : Type) : Type := mkSaved {
  pls_model_pkl : M;
  X_test_raw_npy : ndarray;
  y_test_npy : list Q
}.
Arguments mkSaved {M} _ _ _.
Arguments pls_model_pkl {M} _.
Arguments X_test_raw_npy {M} _.
Arguments y_test_npy {M} _.

Section Main.
Variable K : Kernels.
Variable SK : Sklearn.
Variable train_test_split : ndarray -> list Q -> Split.

(** The data flow of [main] from the loaded [X], [y] to the three saved
    artifacts.  The steps in between that only print (the evaluation of
    the two models, the neural network fitted for comparison) are left
    out. *)
Definition main_saved (X : ndarray) (y : list Q)
  : result (Saved (fitted SK)) :=
  X_prep <- trainer.preprocess_spectra K X ;;
  let sp := train_test_split X_prep y in
  pls <- trainer.train_pls SK (split_X_train sp) (split_y_train sp) ;;
  Ok (mkSaved pls (nd_from (nd_len (split_X_train sp)) X) (split_y_test sp)).
End Main.

(** What scikit-learn guarantees of a split of as many labels as rows:
    the two parts share out the rows, and the test labels are as many as
    the test rows. *)
Definition split_sizes (train_test_split : ndarray -> list Q -> Split)
  : Prop :=
  forall (X : ndarray) (y : list Q),
    length y = nd_len X ->
    nd_len (split_X_train (train_test_split X y))
    + nd_len (split_X_test (train_test_split X y)) = nd_len X
    /\ length (split_y_test (train_test_split X y))
       = nd_len (split_X_test (train_test_split X y)).

(** A split that keeps the first four rows of every five for training. *)
Definition head_split (X : ndarray) (y : list Q) : Split :=
  let k := (nd_len X - nd_len X / 5)%nat in
  mkSplit (match X with
           | Arr1 v => Arr1 (firstn k v)
           | Arr2 n rows => Arr2 n (firstn k rows)
           end)
          (nd_from k X)
          (firstn k y)
          (skipn k y).

(** Text made of decimal digits only (possibly empty). *)
Fixpoint digits_only (s : string) : bool :=
  match s with
  | EmptyString => true
  | String c rest => load_data.is_digit_char c && digits_only rest
  end.

(* ===================================================================== *)
(** ** The rest of backend/server.py: list.remove as Python has it *)
(* ===================================================================== *)

(** [l.remove(x)]: the first occurrence goes, and [ValueError] is raised
    when there is none. *)
Fixpoint py_list_remove (x : nat) (l : list nat) : result (list nat) :=
  match l with
  | [] => Raise (mkExn ValueError "list.remove(x): x not in list")
  | y :: rest =>
      if (x =? y)%nat then Ok rest
      else r <- py_list_remove x rest ;; Ok (y :: r)
  end.

(** [ConnectionManager.disconnect] called on its own. *)
Definition manager_disconnect (m : server.ConnectionManager) (websocket : nat)
  : result server.ConnectionManager :=
  l <- py_list_remove websocket (server.active_connections m) ;;
  Ok (server.mkManager l).

(** The exceptions raised by [get] on a value that is not a dict, by the
    division of a value that is not a number, and by its comparison with
    a float. *)
Definition no_get_error : exn :=
  mkExn AttributeError "object has no attribute 'get'".

Definition division_type_error : exn :=
  mkExn TypeError "unsupported operand type(s) for /".


(** A message the tick accepts: a text of at most 512 characters (so
    that neither the nesting nor the digits of a number can exceed what
    Python's decoder takes) that is a JSON object whose noiseLevel, if
    present, is a positive number of at most 100 percent, and whose
    threshold, if present, is a number.  A noise level of zero is left
    out because the text cannot tell 0.0 from -0.0 once it is read as a
    rational, and numpy refuses the latter. *)
Definition acceptable_message (data : string) : Prop :=
  exists (members : list (string * json)) (q t : Q),
    String.length data <= 512
    /\ json_loads data = Ok (JObject members)
    /\ server.as_number (match server.dict_lookup "noiseLevel" members with
                         | Some v => v
                         | None => JNumber 2.0
                         end) = Some q
    /\ (0 < q)%Q
    /\ (q <= 100)%Q
    /\ server.as_number (match server.dict_lookup "threshold" members with
                         | Some v => v
                         | None => JNumber 13.0
                         end) = Some t.

(** Artifacts on which a tick with an acceptable message completes: a
    non-empty pool of spectra of at least 15 samples, as many labels as
    spectra, a regressor that answers a one-row batch with one value and a
    detector that answers it with at least one label. *)
Definition serviceable (A : Artifacts) : Prop :=
  0 < length (X_test A)
  /\ length (y_test A) = length (X_test A)
  /\ Forall (fun spectrum => 15 <= length spectrum) (X_test A)
  /\ (forall n r,
        exists v, server.squeeze_float (pls_predict A (Arr2 n [r])) = Ok v)
  /\ (forall n r,
        exists label,
          server.getitem (iso_predict A (Arr2 n [r])) 0 = Ok label).

(* ===================================================================== *)
(** ** Properties of trainer.py *)
(* ===================================================================== *)

Lemma Qltb_lt (x y : Q) : Qltb x y = true <-> (x < y)%Q.
Proof.
  unfold Qltb. rewrite negb_true_iff.
  split; intro H.
  - apply Qnot_le_lt. intro Hle. apply Qle_bool_iff in Hle. congruence.
  - destruct (Qle_bool y x) eqn:E; [|reflexivity].
    apply Qle_bool_iff in E. exfalso. exact (Qlt_not_le _ _ H E).
Qed.

Lemma Qltb_ge (x y : Q) : Qltb x y = false <-> (y <= x)%Q.
Proof.
  unfold Qltb. rewrite negb_false_iff. apply Qle_bool_iff.
Qed.

Lemma stretch_same {A : Type} (l : list A) :
  stretch (bshape (length l) (length l)) l = l.
Proof.
  destruct l as [|a [|b l]]; reflexivity.
Qed.

Lemma zip_with_map {A B C D : Type} (f : B -> C -> D)
  (g : A -> B) (h : A -> C) (l : list A) :
  zip_with f (map g l) (map h l) = map (fun a => f (g a) (h a)) l.
Proof.
  unfold zip_with. induction l as [|a l IH]; simpl; [reflexivity|].
  now rewrite IH.
Qed.

Lemma broadcast_column (op : Q -> Q -> Q) (n : nat)
  (f : list Q -> list Q) (g : list Q -> Q) (rows : list (list Q)) :
  (n =? 1)%nat = false ->
  broadcast_rows op n (map f rows) 1 (map (fun r => [g r]) rows)
  = Ok (n, map (fun r => zip_with op (stretch n (f r)) (stretch n [g r])) rows).
Proof.
  intro Hn. unfold broadcast_rows.
  rewrite !length_map.
  unfold broadcastable at 1. rewrite Nat.eqb_refl. cbn [orb andb].
  unfold broadcastable. rewrite Hn. cbn [Nat.eqb orb].
  assert (Hs : bshape n 1 = n) by (unfold bshape; now rewrite Hn).
  rewrite Hs.
  pose proof (stretch_same (map f rows)) as E1.
  pose proof (stretch_same (map (fun r => [g r]) rows)) as E2.
  rewrite !length_map in E1, E2. rewrite E1, E2.
  now rewrite zip_with_map.
Qed.

Lemma preprocess_batch (K : Kernels) (n : nat) (rows : list (list Q)) :
  15 <= n ->
  rows <> [] ->
  trainer.preprocess_spectra K (Arr2 n rows)
  = Ok (Arr2 n (map (preprocess_row K n) rows)).
Proof.
  intros Hn Hrows.
  assert (Hw : (n <? 15)%nat = false) by (apply Nat.ltb_ge; exact Hn).
  assert (Hs : (length rows * n <? 15)%nat = false).
  { apply Nat.ltb_ge. destruct rows as [|r rows]; [congruence|].
    cbn [length]. nia. }
  assert (H1 : (n =? 1)%nat = false) by (apply Nat.eqb_neq; lia).
  unfold trainer.preprocess_spectra, trainer.savgol_filter.
  cbn [shape_last nd_size]. rewrite Hw, Hs. cbn [orb].
  cbn [bind np_mean_axis1 trainer.np_std_axis1 nd_map nd_binop].
  rewrite !map_map.
  rewrite (broadcast_column Qminus n (savgol_row K 15 2 1)
             (fun r => row_mean (savgol_row K 15 2 1 r)) rows H1).
  cbn [bind fst snd nd_binop map].
  rewrite (broadcast_column Qdiv n
             (fun r => zip_with Qminus (stretch n (savgol_row K 15 2 1 r))
                         (stretch n [row_mean (savgol_row K 15 2 1 r)]))
             (fun r => (trainer.row_std K (savgol_row K 15 2 1 r) + 1e-8)%Q)
             rows H1).
  reflexivity.
Qed.

Lemma preprocess_rank1 (K : Kernels) (S : list Q) :
  15 <= length S ->
  trainer.preprocess_spectra K (Arr1 S) = Raise axis_error.
Proof.
  intro Hn.
  unfold trainer.preprocess_spectra, trainer.savgol_filter.
  cbn [shape_last nd_size].
  replace (length S <? 15)%nat with false by (symmetry; apply Nat.ltb_ge; lia).
  reflexivity.
Qed.

Lemma preprocess_no_rows (K : Kernels) (n : nat) :
  trainer.preprocess_spectra K (Arr2 n []) = Raise trainer.window_error.
Proof.
  unfold trainer.preprocess_spectra, trainer.savgol_filter.
  cbn [shape_last nd_size length Nat.mul].
  change (0 <? 15)%nat with true. rewrite orb_true_r. reflexivity.
Qed.

(** C3, as the specification states it, fails on the reference kernels:
    a spectrum of fifteen samples is preprocessed when wrapped in a
    one-row batch, but the bare rank-1 spectrum makes the per-row mean
    raise an axis error, so there is no single-spectrum result for the
    batch row to be equal to. *)
Lemma C3_bare_spectrum_raises :
  length (Ideal.spectrum 0) = 15
  /\ returned (trainer.preprocess_spectra Ideal.kernels
                 (reshape_1 (Ideal.spectrum 0))) = true
  /\ trainer.preprocess_spectra Ideal.kernels (Arr1 (Ideal.spectrum 0))
     = Raise axis_error
  /\ ~ batch_single_equivalence Ideal.kernels (Ideal.spectrum 0).
Proof.
  split; [reflexivity|].
  split; [vm_compute; reflexivity|].
  split; [apply preprocess_rank1; vm_compute; lia|].
  intros [r [_ H]].
  rewrite preprocess_rank1 in H by (vm_compute; lia).
  discriminate H.
Qed.

(** C3 (amended): a single spectrum is preprocessed as a one-row batch
    only.  For every spectrum of valid length (at least 15 samples),
    preprocessing the one-row batch made of it returns a batch of the
    same width with exactly one row, whereas preprocessing the bare
    rank-1 spectrum raises the axis error of the per-row mean and returns
    nothing. *)
Theorem C3_one_row_batch_returns_bare_spectrum_raises
  (K : Kernels) (S : list Q) :
  15 <= length S ->
  (exists o : list Q,
      trainer.preprocess_spectra K (reshape_1 S) = Ok (Arr2 (length S) [o]))
  /\ trainer.preprocess_spectra K (Arr1 S) = Raise axis_error
  /\ returned (trainer.preprocess_spectra K (Arr1 S)) = false.
Proof.
  intro Hn. split; [|split].
  - exists (preprocess_row K (length S) S).
    unfold reshape_1. rewrite preprocess_batch; [reflexivity|exact Hn|].
    discriminate.
  - now apply preprocess_rank1.
  - now rewrite preprocess_rank1.
Qed.

Lemma C3_one_row_batch_returns_bare_spectrum_raises_witness :
  (exists o : list Q,
      trainer.preprocess_spectra Ideal.kernels (reshape_1 (Ideal.spectrum 3))
      = Ok (Arr2 (length (Ideal.spectrum 3)) [o]))
  /\ trainer.preprocess_spectra Ideal.kernels (Arr1 (Ideal.spectrum 3))
     = Raise axis_error
  /\ returned (trainer.preprocess_spectra Ideal.kernels
                 (Arr1 (Ideal.spectrum 3))) = false.
Proof.
  apply (C3_one_row_batch_returns_bare_spectrum_raises
           Ideal.kernels (Ideal.spectrum 3)).
  vm_compute. lia.
Defined.

Lemma never_configuration_error (e : exn) :
  isinstance e "ConfigurationError" = false.
Proof.
  destruct e as [[] msg]; reflexivity.
Qed.

(** C9, as the specification states it, fails: a batch whose rows have
    ten samples is rejected, but with the filter's own [ValueError]; the
    exception is not a ConfigurationError, a class that no exception of
    the program has among its bases. *)
Lemma C9_short_spectrum_not_configuration_error :
  shape_last Ideal.short_batch = 10
  /\ fails_with (trainer.preprocess_spectra Ideal.kernels Ideal.short_batch)
       "ValueError"
  /\ ~ fails_with (trainer.preprocess_spectra Ideal.kernels Ideal.short_batch)
         "ConfigurationError".
Proof.
  split; [reflexivity|]. split.
  - exists trainer.window_error. split; reflexivity.
  - intros [e [_ He]]. rewrite never_configuration_error in He. discriminate He.
Qed.

(** C9 (amended): an input whose filtered axis has fewer than 15 samples
    is rejected before anything is computed: [preprocess_spectra] raises
    the smoothing filter's [ValueError], whose message names the window
    length, and returns no result. *)
Theorem C9_short_spectrum_raises_value_error (K : Kernels) (X : ndarray) :
  shape_last X < 15 ->
  trainer.preprocess_spectra K X = Raise trainer.window_error
  /\ exc_type trainer.window_error = ValueError
  /\ fails_with (trainer.preprocess_spectra K X) "ValueError"
  /\ returned (trainer.preprocess_spectra K X) = false.
Proof.
  intro Hshort.
  assert (E : trainer.preprocess_spectra K X = Raise trainer.window_error).
  { unfold trainer.preprocess_spectra, trainer.savgol_filter.
    replace (shape_last X <? 15)%nat with true
      by (symmetry; apply Nat.ltb_lt; exact Hshort).
    reflexivity. }
  rewrite E. repeat split.
  exists trainer.window_error. split; reflexivity.
Qed.

Lemma C9_short_spectrum_raises_value_error_witness :
  trainer.preprocess_spectra Ideal.kernels Ideal.short_batch
  = Raise trainer.window_error
  /\ exc_type trainer.window_error = ValueError
  /\ fails_with (trainer.preprocess_spectra Ideal.kernels Ideal.short_batch)
       "ValueError"
  /\ returned (trainer.preprocess_spectra Ideal.kernels Ideal.short_batch)
     = false.
Proof.
  apply (C9_short_spectrum_raises_value_error Ideal.kernels Ideal.short_batch).
  vm_compute. lia.
Defined.

(** *** The component scan *)

Lemma Qsum_from (l : list Q) (a : Q) :
  (fold_left Qplus l a == a + Qsum l)%Q.
Proof.
  unfold Qsum. revert a.
  induction l as [|x l IH]; intro a; cbn [fold_left].
  - ring.
  - rewrite (IH (a + x)%Q), (IH (0 + x)%Q). ring.
Qed.

Lemma Qsum_cons (x : Q) (l : list Q) : (Qsum (x :: l) == x + Qsum l)%Q.
Proof.
  unfold Qsum at 1. cbn [fold_left]. rewrite Qsum_from. ring.
Qed.

Lemma Qsum_opp (l : list Q) : (Qsum (map Qopp l) == - Qsum l)%Q.
Proof.
  induction l as [|x l IH]; cbn [map].
  - reflexivity.
  - rewrite !Qsum_cons, IH. ring.
Qed.

Lemma finite_scores_negated (mse : list Q) :
  trainer.finite_scores (negated mse) = Some (map Qopp mse).
Proof.
  unfold negated. induction mse as [|e mse IH]; cbn; [reflexivity|].
  unfold negated in IH. now rewrite IH.
Qed.

(** The score of a candidate whose five folds returned the errors [mse]
    is their average. *)
Lemma score_of_five_folds (mse : list Q) :
  length mse = 5 ->
  exists m : Q,
    option_map Qopp (trainer.scores_mean (negated mse)) = Some m
    /\ (m == average5 mse)%Q.
Proof.
  intro Hlen. unfold trainer.scores_mean.
  rewrite finite_scores_negated.
  destruct mse as [|e mse]; [discriminate Hlen|].
  cbn [map option_map]. eexists. split; [reflexivity|].
  change (Qopp e :: map Qopp mse) with (map Qopp (e :: mse)).
  unfold average5, Qlen. rewrite length_map, Hlen, Qsum_opp.
  change (inject_Z (Z.of_nat 5)) with 5%Q. field.
Qed.

Lemma scan_from_pure (SK : Sklearn) (X : ndarray) (y : list Q)
  (score : nat -> option Q) (l : list nat) :
  (forall i, In i l -> trainer.cv_score SK X y i = Ok (score i)) ->
  forall st,
    trainer.scan_from SK X y l st = Ok (fold_left (scan_by score) l st).
Proof.
  induction l as [|i l IH]; intros H st; [reflexivity|].
  cbn [trainer.scan_from fold_left]. unfold trainer.scan_step.
  rewrite (H i) by now left. cbn [bind].
  apply IH. intros j Hj. apply H. now right.
Qed.

Lemma scan_from_raises (SK : Sklearn) (X : ndarray) (y : list Q)
  (l1 l2 : list nat) (i : nat) (e : exn) :
  (forall j, In j l1 ->
     exists scores, cross_val_score SK (mkPLS j) X y trainer.cv = Ok scores) ->
  cross_val_score SK (mkPLS i) X y trainer.cv = Raise e ->
  forall st, trainer.scan_from SK X y (l1 ++ i :: l2) st = Raise e.
Proof.
  intros H He. induction l1 as [|j l1 IH]; intro st.
  - cbn [app trainer.scan_from]. unfold trainer.scan_step, trainer.cv_score.
    rewrite He. reflexivity.
  - cbn [app trainer.scan_from]. unfold trainer.scan_step, trainer.cv_score.
    destruct (H j ltac:(now left)) as [scores ->]. cbn [bind].
    apply IH. intros j' Hj'. apply H. now right.
Qed.

(** Scanning [l] from a state that holds candidate [b] with its score
    ends on the first candidate of [b :: l] whose score is minimal among
    the scores that are numbers. *)
Lemma scan_first_minimum (score : nat -> option Q) (l : list nat)
  (b : nat) (s : Q) :
  score b = Some s ->
  exists (k : nat) (t : Q) (l1 l2 : list nat),
    fold_left (scan_by score) l (b, Some s) = (k, Some t)
    /\ score k = Some t
    /\ b :: l = (l1 ++ k :: l2)%list
    /\ (forall j u, In j l1 -> score j = Some u -> (t < u)%Q)
    /\ (forall j u, In j l2 -> score j = Some u -> (t <= u)%Q).
Proof.
  revert b s. induction l as [|i l IH]; intros b s Hb.
  - exists b, s, [], []. cbn. repeat split; try assumption; intros j u [].
  - cbn [fold_left]. unfold scan_by at 2. cbn [snd].
    destruct (score i) as [si|] eqn:Ei; cbn [trainer.lt_lowest].
    + destruct (Qltb si s) eqn:E.
      * apply Qltb_lt in E.
        destruct (IH i si Ei) as (k & t & l1 & l2 & Hf & Hk & Hsplit & Hlt & Hle).
        exists k, t, (b :: l1), l2.
        split; [exact Hf|]. split; [exact Hk|].
        split; [cbn; now rewrite Hsplit|].
        split; [|exact Hle].
        intros j u [<-|Hj] Hu; [|now apply (Hlt j)].
        rewrite Hb in Hu. injection Hu as <-.
        destruct l1 as [|i' l1].
        -- cbn in Hsplit. injection Hsplit as -> _.
           rewrite Ei in Hk. injection Hk as <-. exact E.
        -- cbn in Hsplit. injection Hsplit as <- _.
           apply Qlt_trans with si; [|exact E].
           apply (Hlt i); [now left|exact Ei].
      * apply Qltb_ge in E.
        destruct (IH b s Hb) as (k & t & l1 & l2 & Hf & Hk & Hsplit & Hlt & Hle).
        destruct l1 as [|b' l1].
        -- cbn in Hsplit. injection Hsplit as <- <-.
           rewrite Hb in Hk. injection Hk as <-.
           exists b, s, [], (i :: l).
           split; [exact Hf|]. split; [exact Hb|]. split; [reflexivity|].
           split; [intros j u []|].
           intros j u [<-|Hj] Hu; [|now apply (Hle j)].
           rewrite Ei in Hu. injection Hu as <-. exact E.
        -- cbn in Hsplit. injection Hsplit as <- Hl.
           exists k, t, (b :: i :: l1), l2.
           split; [exact Hf|]. split; [exact Hk|].
           split; [cbn; now rewrite Hl|].
           split; [|exact Hle].
           intros j u [<-|[<-|Hj]] Hu.
           ++ apply (Hlt b); [now left|exact Hu].
           ++ rewrite Ei in Hu. injection Hu as <-.
              apply Qlt_le_trans with s; [|exact E].
              apply (Hlt b); [now left|exact Hb].
           ++ apply (Hlt j); [now right|exact Hu].
    + destruct (IH b s Hb) as (k & t & l1 & l2 & Hf & Hk & Hsplit & Hlt & Hle).
      destruct l1 as [|b' l1].
      * cbn in Hsplit. injection Hsplit as <- <-.
        exists b, t, [], (i :: l).
        split; [exact Hf|]. split; [exact Hk|]. split; [reflexivity|].
        split; [intros j u []|].
        intros j u [<-|Hj] Hu; [congruence|now apply (Hle j)].
      * cbn in Hsplit. injection Hsplit as <- Hl.
        exists k, t, (b :: i :: l1), l2.
        split; [exact Hf|]. split; [exact Hk|].
        split; [cbn; now rewrite Hl|].
        split; [|exact Hle].
        intros j u [<-|[<-|Hj]] Hu.
        -- apply (Hlt b); [now left|exact Hu].
        -- congruence.
        -- apply (Hlt j); [now right|exact Hu].
Qed.

(** Scanning from the initial state [(b0, inf)]: either no candidate has
    a score that is a number and the state is unchanged, or the scan
    ends on the first candidate whose score is minimal. *)
Lemma scan_from_infinity (score : nat -> option Q) (l : list nat) (b0 : nat) :
  (fold_left (scan_by score) l (b0, None) = (b0, None)
   /\ forall j, In j l -> score j = None)
  \/ exists (k : nat) (t : Q) (l1 l2 : list nat),
       fold_left (scan_by score) l (b0, None) = (k, Some t)
       /\ score k = Some t
       /\ l = (l1 ++ k :: l2)%list
       /\ (forall j u, In j l1 -> score j = Some u -> (t < u)%Q)
       /\ (forall j u, In j l2 -> score j = Some u -> (t <= u)%Q).
Proof.
  induction l as [|i l IH].
  - left. split; [reflexivity|intros j []].
  - cbn [fold_left].
    assert (Hstep : scan_by score (b0, None) i
                    = match score i with
                      | Some si => (i, Some si)
                      | None => (b0, None)
                      end).
    { unfold scan_by. cbn [snd]. destruct (score i); reflexivity. }
    rewrite Hstep. clear Hstep.
    destruct (score i) as [si|] eqn:Ei.
    + right. apply (scan_first_minimum score l i si Ei).
    + destruct IH as [[Hf Hnone]|(k & t & l1 & l2 & Hf & Hk & -> & Hlt & Hle)].
      * left. split; [exact Hf|].
        intros j [<-|Hj]; [exact Ei|now apply Hnone].
      * right. exists k, t, (i :: l1), l2.
        split; [exact Hf|]. split; [exact Hk|]. split; [reflexivity|].
        split; [|exact Hle].
        intros j u [<-|Hj] Hu; [congruence|now apply (Hlt j)].
Qed.

Lemma seq_split (l1 l2 : list nat) (k a n : nat) :
  seq a n = (l1 ++ k :: l2)%list ->
  (forall j, In j l1 -> a <= j < k)
  /\ a <= k < a + n
  /\ (forall j, In j l2 -> k < j < a + n).
Proof.
  revert a n. induction l1 as [|x l1 IH]; intros a n H.
  - destruct n as [|n]; [discriminate H|].
    cbn in H. injection H as <- <-.
    split; [intros j []|]. split; [lia|].
    intros j Hj. apply in_seq in Hj. lia.
  - destruct n as [|n]; [discriminate H|].
    cbn in H. injection H as <- H.
    destruct (IH _ _ H) as (H1 & Hk & H2).
    split; [|split; [lia|]].
    + intros j [<-|Hj]; [lia|]. specialize (H1 j Hj). lia.
    + intros j Hj. specialize (H2 j Hj). lia.
Qed.

Lemma seq_around (i : nat) :
  1 <= i <= 14 ->
  seq 1 14 = (seq 1 (i - 1) ++ i :: seq (S i) (14 - i))%list.
Proof.
  intro Hi.
  replace 14 with ((i - 1) + S (14 - i)) at 1 by lia.
  rewrite seq_app. cbn [seq]. repeat f_equal; lia.
Qed.

(** C6, as the specification states it, fails: not every training set
    yields a model.  On the stand-in that has scikit-learn's error
    behaviour, four samples are fewer than the five folds and the first
    cross validation raises; forty samples of ten features let the
    candidates up to 10 be scored, and the cross validation for 11
    components raises because every fit fails.  In both cases
    [train_pls] raises and returns no model. *)
Lemma C6_small_training_set_raises :
  nd_len (training_rows 4) = 4
  /\ fails_with (trainer.train_pls reference_sklearn
                   (training_rows 4) (training_labels 4)) "ValueError"
  /\ returned (trainer.train_pls reference_sklearn
                 (training_rows 4) (training_labels 4)) = false
  /\ (nd_len narrow_rows = 40 /\ shape_last narrow_rows = 10)
  /\ fails_with (trainer.train_pls reference_sklearn
                   narrow_rows (training_labels 40)) "ValueError"
  /\ returned (trainer.train_pls reference_sklearn
                 narrow_rows (training_labels 40)) = false.
Proof.
  split; [reflexivity|].
  split; [exists too_few_samples_error; split; vm_compute; reflexivity|].
  split; [vm_compute; reflexivity|].
  split; [split; reflexivity|].
  split; [exists all_fits_failed_error; split; vm_compute; reflexivity|].
  vm_compute. reflexivity.
Qed.

(** C6 (amended): [train_pls] scans the numbers of components
    1, 2, ..., 14 in ascending order, each with a shuffled 5-fold cross
    validation seeded with 42.  When each of the fourteen cross
    validations returns five fold errors, the candidate's score is their
    average, and [train_pls] ends with the fit, on the whole training
    set, of [k] components, where [k] is in [1, 14], no candidate has a
    lower average and every smaller candidate has a strictly higher one.
    When a cross validation raises after the earlier ones returned,
    [train_pls] raises the same exception and returns no model. *)
Theorem C6_train_pls_selects_first_minimum
  (SK : Sklearn) (X_train : ndarray) (y_train : list Q) :
  trainer.cv = mkKFold 5 true 42
  /\ trainer.scan SK X_train y_train
     = trainer.scan_from SK X_train y_train
         [1; 2; 3; 4; 5; 6; 7; 8; 9; 10; 11; 12; 13; 14] (1, None)
  /\ (forall mse : nat -> list Q,
        (forall i, 1 <= i <= 14 ->
           length (mse i) = 5
           /\ cross_val_score SK (mkPLS i) X_train y_train trainer.cv
              = Ok (negated (mse i))) ->
        exists k : nat,
          1 <= k <= 14
          /\ trainer.train_pls SK X_train y_train
             = pls_fit SK (mkPLS k) X_train y_train
          /\ (forall j, 1 <= j <= 14 ->
                (average5 (mse k) <= average5 (mse j))%Q)
          /\ (forall j, 1 <= j < k ->
                (average5 (mse k) < average5 (mse j))%Q))
  /\ (forall (i : nat) (e : exn),
        1 <= i <= 14 ->
        (forall j, 1 <= j < i ->
           exists scores,
             cross_val_score SK (mkPLS j) X_train y_train trainer.cv
             = Ok scores) ->
        cross_val_score SK (mkPLS i) X_train y_train trainer.cv = Raise e ->
        trainer.train_pls SK X_train y_train = Raise e).
Proof.
  split; [reflexivity|]. split; [reflexivity|]. split.
  - intros mse Hcv.
    set (score := fun i =>
           option_map Qopp (trainer.scores_mean (negated (mse i)))).
    assert (Hscore : forall i, 1 <= i <= 14 ->
              exists m, score i = Some m /\ (m == average5 (mse i))%Q).
    { intros i Hi. apply score_of_five_folds. apply Hcv. exact Hi. }
    assert (Hpure : trainer.scan SK X_train y_train
                    = Ok (fold_left (scan_by score) (seq 1 14) (1, None))).
    { unfold trainer.scan. apply scan_from_pure.
      intros i Hi. apply in_seq in Hi.
      unfold trainer.cv_score.
      destruct (Hcv i ltac:(lia)) as [_ ->]. reflexivity. }
    destruct (scan_from_infinity score (seq 1 14) 1)
      as [[_ Hnone]|(k & t & l1 & l2 & Hf & Hk & Hsplit & Hlt & Hle)].
    { destruct (Hscore 1 ltac:(lia)) as (m & Hm & _).
      rewrite (Hnone 1) in Hm by (apply in_seq; lia). discriminate Hm. }
    destruct (seq_split _ _ _ _ _ Hsplit) as (H1 & Hrange & H2).
    assert (Hmem : forall j, 1 <= j <= 14 -> In j l1 \/ j = k \/ In j l2).
    { intros j Hj.
      assert (Hin : In j (seq 1 14)) by (apply in_seq; lia).
      rewrite Hsplit in Hin. apply in_app_or in Hin.
      destruct Hin as [Hin|[Hin|Hin]]; auto. }
    destruct (Hscore k ltac:(lia)) as (mk & Hmk & Eqk).
    assert (t = mk) by congruence. subst mk.
    exists k. split; [lia|]. split.
    { unfold trainer.train_pls. rewrite Hpure, Hf. reflexivity. }
    split.
    + intros j Hj. destruct (Hscore j Hj) as (mj & Hmj & Eqj).
      rewrite <- Eqk, <- Eqj.
      destruct (Hmem j Hj) as [Hin|[->|Hin]].
      * apply Qlt_le_weak. now apply (Hlt j).
      * assert (mj = t) by congruence. subst mj. apply Qle_refl.
      * now apply (Hle j).
    + intros j Hj. destruct (Hscore j ltac:(lia)) as (mj & Hmj & Eqj).
      rewrite <- Eqk, <- Eqj.
      destruct (Hmem j ltac:(lia)) as [Hin|[->|Hin]].
      * now apply (Hlt j).
      * lia.
      * specialize (H2 j Hin). lia.
  - intros i e Hi Hbefore He.
    unfold trainer.train_pls, trainer.scan.
    rewrite (seq_around i Hi).
    rewrite (scan_from_raises SK X_train y_train _ _ i e); [reflexivity| |exact He].
    intros j Hj. apply in_seq in Hj. apply Hbefore. lia.
Qed.

Lemma reference_scores_twenty (i : nat) :
  1 <= i <= 14 ->
  length (repeat (reference_error (mkPLS i)) 5) = 5
  /\ cross_val_score reference_sklearn (mkPLS i)
       (training_rows 20) (training_labels 20) trainer.cv
     = Ok (negated (repeat (reference_error (mkPLS i)) 5)).
Proof.
  intro Hi. split; [reflexivity|].
  assert (H : i = 1 \/ i = 2 \/ i = 3 \/ i = 4 \/ i = 5 \/ i = 6 \/ i = 7
              \/ i = 8 \/ i = 9 \/ i = 10 \/ i = 11 \/ i = 12 \/ i = 13
              \/ i = 14) by lia.
  repeat (destruct H as [->|H]; [vm_compute; reflexivity|]).
  subst i. vm_compute. reflexivity.
Qed.

Lemma C6_train_pls_selects_first_minimum_witness :
  trainer.train_pls reference_sklearn (training_rows 20) (training_labels 20)
  = Ok 3
  /\ exists k : nat,
       1 <= k <= 14
       /\ trainer.train_pls reference_sklearn
            (training_rows 20) (training_labels 20)
          = pls_fit reference_sklearn (mkPLS k)
              (training_rows 20) (training_labels 20)
       /\ (forall j, 1 <= j <= 14 ->
             (average5 (repeat (reference_error (mkPLS k)) 5)
              <= average5 (repeat (reference_error (mkPLS j)) 5))%Q)
       /\ (forall j, 1 <= j < k ->
             (average5 (repeat (reference_error (mkPLS k)) 5)
              < average5 (repeat (reference_error (mkPLS j)) 5))%Q).
Proof.
  split; [vm_compute; reflexivity|].
  apply (proj1 (proj2 (proj2 (C6_train_pls_selects_first_minimum
                                reference_sklearn (training_rows 20)
                                (training_labels 20))))
           (fun i => repeat (reference_error (mkPLS i)) 5)).
  apply reference_scores_twenty.
Defined.

(* ===================================================================== *)
(** ** Properties of backend/server.py *)
(* ===================================================================== *)

Import server.

Ltac bind_inv H :=
  repeat match type of H with
    | bind ?c _ = Ok _ =>
        let E := fresh "E" in
        destruct c eqn:E; cbn [bind] in H; [|discriminate H]
    end.

Lemma json_loads_raises (data : string) (e : exn) :
  json_loads data = Raise e -> exc_type e = JSONDecodeError.
Proof.
  unfold json_loads.
  destruct (JsonText.value _ _) as [[v rest]|].
  - destruct (JsonText.skip_ws rest); intro H; [discriminate H|].
    injection H as <-. reflexivity.
  - intro H. injection H as <-. reflexivity.
Qed.

Lemma getitem_Ok {A : Type} (l : list A) (i : nat) (a : A) :
  getitem l i = Ok a -> nth_error l i = Some a /\ i < length l.
Proof.
  unfold getitem. destruct (nth_error l i) eqn:E; intro H; [|discriminate H].
  injection H as ->. split; [reflexivity|].
  apply nth_error_Some. congruence.
Qed.

Lemma getitem_lt {A : Type} (l : list A) (i : nat) :
  i < length l -> exists a, getitem l i = Ok a.
Proof.
  intro H. unfold getitem.
  destruct (nth_error l i) eqn:E; [eauto|].
  apply nth_error_None in E. lia.
Qed.

Lemma get_object (members : list (string * json)) (key : string)
  (default : json) :
  get (JObject members) key default
  = Ok (match dict_lookup key members with
        | Some v => v
        | None => default
        end).
Proof. reflexivity. Qed.

(** A completed tick read a cursor inside the pool and stepped it by one,
    modulo the pool size. *)
Lemma tick_cursor (K : Kernels) (A : Artifacts) (idx : nat) (data : string)
  (env : tick_env) (p : Payload.t) (idx' : nat) :
  tick K A idx data env = Ok (p, idx') ->
  idx < length (X_test A) /\ idx' = (idx + 1) mod length (X_test A).
Proof.
  intro H. unfold tick in H. cbv zeta in H. bind_inv H.
  apply getitem_Ok in E1. destruct E1 as [_ Hlt].
  split; [exact Hlt|].
  unfold py_mod in E10.
  destruct (length (X_test A)) eqn:El; [discriminate E10|].
  injection E10 as <-. injection H as _ <-. reflexivity.
Qed.

(** C5: whenever a tick sends a payload, the message was a JSON object,
    the effective threshold (the message's "threshold" member, else 13.0)
    is a number, and the alert flag is true exactly when the predicted
    value is strictly below it; at equality the flag is false. *)
Theorem C5_alert_iff_strictly_below_threshold
  (K : Kernels) (A : Artifacts) (idx : nat) (data : string) (env : tick_env)
  (p : Payload.t) (idx' : nat) :
  tick K A idx data env = Ok (p, idx') ->
  exists (members : list (string * json)) (threshold : Q),
    json_loads data = Ok (JObject members)
    /\ as_number (match dict_lookup "threshold" members with
                  | Some v => v
                  | None => JNumber 13.0
                  end) = Some threshold
    /\ (Payload.alert p = true <-> (Payload.predicted_pol p < threshold)%Q)
    /\ ((Payload.predicted_pol p == threshold)%Q -> Payload.alert p = false).
Proof.
  intro H. unfold tick in H. cbv zeta in H. bind_inv H.
  injection H as <- _.
  destruct a as [| | | | |members]; try discriminate E0.
  rewrite get_object in E8. injection E8 as <-.
  unfold float_lt in E9.
  destruct (as_number _) as [thr|] eqn:Ethr; [|discriminate E9].
  injection E9 as <-.
  exists members, thr. cbn [Payload.alert Payload.predicted_pol].
  split; [reflexivity|]. split; [exact Ethr|]. split.
  - apply Qltb_lt.
  - intro Heq. apply Qltb_ge. rewrite Heq. apply Qle_refl.
Qed.

Lemma C5_alert_iff_strictly_below_threshold_witness :
  exists (p : Payload.t) (members : list (string * json)) (threshold : Q),
    tick Ideal.kernels Ideal.pool5 0 "{}" Ideal.env = Ok (p, 1)
    /\ Payload.predicted_pol p = 13.0%Q
    /\ Payload.alert p = false
    /\ json_loads "{}" = Ok (JObject members)
    /\ as_number (match dict_lookup "threshold" members with
                  | Some v => v
                  | None => JNumber 13.0
                  end) = Some threshold
    /\ (Payload.alert p = true <-> (Payload.predicted_pol p < threshold)%Q)
    /\ ((Payload.predicted_pol p == threshold)%Q -> Payload.alert p = false).
Proof.
  destruct (tick Ideal.kernels Ideal.pool5 0 "{}" Ideal.env)
    as [[p i]|e] eqn:E; [|vm_compute in E; discriminate E].
  assert (Hi : i = 1) by (vm_compute in E; congruence).
  subst i.
  destruct (C5_alert_iff_strictly_below_threshold _ _ _ _ _ _ _ E)
    as (members & thr & H1 & H2 & H3 & H4).
  exists p, members, thr.
  split; [reflexivity|].
  split; [vm_compute in E; injection E as <-; reflexivity|].
  split; [vm_compute in E; injection E as <-; reflexivity|].
  repeat split; assumption || apply H3.
Defined.

Lemma negative_percent_negative_scale (q : Q) :
  (q < 0)%Q -> Qltb (q / 100.0) 0 = true.
Proof.
  intro H. apply Qltb_lt.
  unfold Qdiv. setoid_replace 0%Q with (0 * / 100.0)%Q by ring.
  apply Qmult_lt_compat_r; [reflexivity|exact H].
Qed.

(** C10: a tick whose message is a JSON object with a negative number
    under "noiseLevel" is not validated: with the cursor inside the pool,
    the gaussian draw rejects the negative scale with a [ValueError], the
    tick raises it, and because the handler only catches
    [WebSocketDisconnect] the exception leaves the handler: nothing is
    sent for the tick, no later message is read, and the connection stays
    listed in the manager. *)
Theorem C10_negative_noise_level_aborts_tick
  (K : Kernels) (A : Artifacts) (m : ConnectionManager) (websocket : nat)
  (idx : nat) (data : string) (env : tick_env) (rest : list event)
  (members : list (string * json)) (q : Q) :
  json_loads data = Ok (JObject members) ->
  dict_lookup "noiseLevel" members = Some (JNumber q) ->
  (q < 0)%Q ->
  idx < length (X_test A) ->
  idx < length (y_test A) ->
  (exists spectrum,
      getitem (X_test A) idx = Ok spectrum
      /\ add_industrial_noise env spectrum (q / 100.0) = Raise scale_error)
  /\ tick K A idx data env = Raise scale_error
  /\ loop K A m websocket idx (Receive data env :: rest)
     = mkOutcome [] (Crashed scale_error) m.
Proof.
  intros Hloads Hlookup Hneg HX Hy.
  destruct (getitem_lt _ _ HX) as [spectrum EX].
  destruct (getitem_lt _ _ Hy) as [actual Ey].
  assert (Hnoise : add_industrial_noise env spectrum (q / 100.0)
                   = Raise scale_error).
  { unfold add_industrial_noise, np_random_normal.
    rewrite (negative_percent_negative_scale q Hneg). reflexivity. }
  assert (Htick : tick K A idx data env = Raise scale_error).
  { unfold tick. rewrite Hloads. cbn [bind].
    rewrite get_object, Hlookup. cbn [bind].
    rewrite EX, Ey. cbn [bind].
    unfold truediv. cbn [as_number].
    change (Qeq_bool 100.0 0) with false. cbn [bind].
    rewrite Hnoise. reflexivity. }
  split; [exists spectrum; split; assumption|].
  split; [exact Htick|].
  cbn [loop]. rewrite Htick. reflexivity.
Qed.

Lemma C10_negative_noise_level_aborts_tick_witness :
  json_loads ("{" ++ quoted "noiseLevel" ++ ": -1}")
  = Ok (JObject [("noiseLevel", JNumber (-1))])
  /\ (exists spectrum,
         getitem (X_test Ideal.pool5) 2 = Ok spectrum
         /\ add_industrial_noise Ideal.env spectrum (-1 / 100.0)
            = Raise scale_error)
  /\ tick Ideal.kernels Ideal.pool5 2 ("{" ++ quoted "noiseLevel" ++ ": -1}") Ideal.env
     = Raise scale_error
  /\ loop Ideal.kernels Ideal.pool5 (mkManager [7]) 7 2
       [Receive ("{" ++ quoted "noiseLevel" ++ ": -1}") Ideal.env; Receive "{}" Ideal.env]
     = mkOutcome [] (Crashed scale_error) (mkManager [7]).
Proof.
  split; [vm_compute; reflexivity|].
  apply (C10_negative_noise_level_aborts_tick Ideal.kernels Ideal.pool5
           (mkManager [7]) 7 2 ("{" ++ quoted "noiseLevel" ++ ": -1}") Ideal.env
           [Receive "{}" Ideal.env]
           [("noiseLevel", JNumber (-1))] (-1)).
  - vm_compute. reflexivity.
  - reflexivity.
  - reflexivity.
  - vm_compute. lia.
  - vm_compute. lia.
Defined.

(** *** The session loop *)

Lemma loop_app (K : Kernels) (A : Artifacts) (m : ConnectionManager)
  (websocket : nat) (prefix events : list event) :
  forall idx idx',
    final (loop K A m websocket idx prefix) = Active idx' ->
    manager (loop K A m websocket idx prefix) = m
    /\ loop K A m websocket idx (prefix ++ events)
       = mkOutcome
           (ticks (loop K A m websocket idx prefix)
            ++ ticks (loop K A m websocket idx' events))
           (final (loop K A m websocket idx' events))
           (manager (loop K A m websocket idx' events)).
Proof.
  induction prefix as [|ev prefix IH]; intros idx idx' H.
  - cbn in H. injection H as <-. cbn.
    split; [reflexivity|]. now destruct (loop K A m websocket idx events).
  - destruct ev as [data env|]; [|discriminate H].
    cbn [loop app] in *.
    destruct (tick K A idx data env) as [[p i]|e].
    + cbn [final ticks manager] in *.
      destruct (IH _ _ H) as [Hm ->]. cbn [final ticks manager].
      split; [exact Hm|reflexivity].
    + destruct (isinstance e "WebSocketDisconnect"); discriminate H.
Qed.

Lemma loop_same_ticks (K : Kernels) (A : Artifacts) (m : ConnectionManager)
  (websocket : nat) (data data' : string) (env : tick_env)
  (prefix rest : list event) :
  (forall idx, tick K A idx data env = tick K A idx data' env) ->
  forall idx,
    loop K A m websocket idx (prefix ++ Receive data env :: rest)
    = loop K A m websocket idx (prefix ++ Receive data' env :: rest).
Proof.
  intro Htick.
  induction prefix as [|ev prefix IH]; intro idx.
  - cbn [app loop]. now rewrite Htick.
  - destruct ev as [d e|]; [|reflexivity].
    cbn [app loop].
    destruct (tick K A idx d e) as [[p i]|x]; [|reflexivity].
    now rewrite IH.
Qed.

Lemma dict_lookup_app (key : string) (l1 l2 : list (string * json)) :
  dict_lookup key (l1 ++ l2)
  = match dict_lookup key l2 with
    | Some w => Some w
    | None => dict_lookup key l1
    end.
Proof.
  induction l1 as [|[k v] l1 IH]; cbn [app dict_lookup].
  - now destruct (dict_lookup key l2).
  - rewrite IH. destruct (dict_lookup key l2); [reflexivity|].
    reflexivity.
Qed.

Lemma get_fill_defaults (members : list (string * json)) :
  get (JObject (fill_defaults members)) "noiseLevel" (JNumber 2.0)
  = get (JObject members) "noiseLevel" (JNumber 2.0)
  /\ get (JObject (fill_defaults members)) "threshold" (JNumber 13.0)
     = get (JObject members) "threshold" (JNumber 13.0).
Proof.
  rewrite !get_object. unfold fill_defaults.
  rewrite !dict_lookup_app.
  destruct (dict_lookup "noiseLevel" members) as [n|];
    destruct (dict_lookup "threshold" members) as [t|];
    split; reflexivity.
Qed.

Lemma tick_fill_defaults (K : Kernels) (A : Artifacts) (idx : nat)
  (data data' : string) (env : tick_env) (members : list (string * json)) :
  json_loads data = Ok (JObject members) ->
  json_loads data' = Ok (JObject (fill_defaults members)) ->
  tick K A idx data env = tick K A idx data' env.
Proof.
  intros H H'. unfold tick. rewrite H, H'. cbn [bind].
  destruct (get_fill_defaults members) as [-> ->]. reflexivity.
Qed.

(** C1, as the specification states it, fails: in a session whose first
    message supplies noiseLevel 50 and threshold 20 and whose second
    message is the empty object, the second tick does not use 50 and 20.
    It sends what a message carrying 2.0 and 13.0 would have sent: the
    first noisy sample is the pool value 2 scaled by 1.02 (not by 1.5) and
    the alert is off for the prediction 13 (it would be on under 20). *)
Lemma C1_second_tick_ignores_supplied_values :
  exists (t1 t2 : tick_record) (retained : Payload.t),
    ticks (websocket_endpoint Ideal.kernels Ideal.pool5 (mkManager []) 7
             [Receive Ideal.msg_supplied Ideal.env;
              Receive "{}" Ideal.env])
    = [t1; t2]
    /\ tick Ideal.kernels Ideal.pool5 1 Ideal.msg_supplied Ideal.env
       = Ok (retained, 2)
    /\ tick Ideal.kernels Ideal.pool5 1 Ideal.msg_defaults Ideal.env
       = Ok (sent t2, 2)
    /\ (nth 0 (Payload.noisy_spectrum retained) 0 == 3)%Q
    /\ (nth 0 (Payload.noisy_spectrum (sent t2)) 0 == 2.04)%Q
    /\ Payload.alert retained = true
    /\ Payload.alert (sent t2) = false.
Proof.
  destruct (tick Ideal.kernels Ideal.pool5 1 Ideal.msg_supplied Ideal.env)
    as [[retained i]|e] eqn:E; [|vm_compute in E; discriminate E].
  destruct (ticks (websocket_endpoint Ideal.kernels Ideal.pool5 (mkManager [])
                     7 [Receive Ideal.msg_supplied Ideal.env;
                        Receive "{}" Ideal.env]))
    as [|t1 [|t2 [|t3 l]]] eqn:T; try (vm_compute in T; discriminate T).
  exists t1, t2, retained.
  split; [reflexivity|].
  vm_compute in E. injection E as <- <-.
  vm_compute in T. injection T as <- <-.
  repeat split; vm_compute; reflexivity || (intro; discriminate).
Qed.

(** C1 (amended): the handler keeps no configuration between ticks.  On
    every tick, first or later and whatever earlier messages supplied, a
    message that omits noiseLevel (respectively threshold) is treated
    exactly as the same message with noiseLevel 2.0 (respectively
    threshold 13.0) written in: the tick result is the same at every
    cursor, and so is the outcome of any session in which the one message
    replaces the other. *)
Theorem C1_omitted_fields_take_defaults_on_every_tick
  (K : Kernels) (A : Artifacts) (m : ConnectionManager) (websocket : nat)
  (prefix rest : list event) (data data' : string) (env : tick_env)
  (members : list (string * json)) :
  json_loads data = Ok (JObject members) ->
  json_loads data' = Ok (JObject (fill_defaults members)) ->
  (dict_lookup "noiseLevel" members = None ->
   get (JObject members) "noiseLevel" (JNumber 2.0) = Ok (JNumber 2.0))
  /\ (dict_lookup "threshold" members = None ->
      get (JObject members) "threshold" (JNumber 13.0) = Ok (JNumber 13.0))
  /\ (forall idx, tick K A idx data env = tick K A idx data' env)
  /\ websocket_endpoint K A m websocket (prefix ++ Receive data env :: rest)
     = websocket_endpoint K A m websocket
         (prefix ++ Receive data' env :: rest).
Proof.
  intros H H'.
  assert (Htick : forall idx, tick K A idx data env = tick K A idx data' env).
  { intro idx. eapply tick_fill_defaults; eassumption. }
  split; [intro E; rewrite get_object, E; reflexivity|].
  split; [intro E; rewrite get_object, E; reflexivity|].
  split; [exact Htick|].
  unfold websocket_endpoint. now apply loop_same_ticks.
Qed.

Lemma C1_omitted_fields_take_defaults_on_every_tick_witness :
  websocket_endpoint Ideal.kernels Ideal.pool5 (mkManager []) 7
    ([Receive Ideal.msg_supplied Ideal.env] ++ [Receive "{}" Ideal.env])
  = websocket_endpoint Ideal.kernels Ideal.pool5 (mkManager []) 7
      ([Receive Ideal.msg_supplied Ideal.env]
       ++ [Receive Ideal.msg_defaults Ideal.env]).
Proof.
  apply (C1_omitted_fields_take_defaults_on_every_tick
           Ideal.kernels Ideal.pool5 (mkManager []) 7
           [Receive Ideal.msg_supplied Ideal.env] []
           "{}" Ideal.msg_defaults Ideal.env []).
  - vm_compute. reflexivity.
  - vm_compute. reflexivity.
Defined.

(** C2, as the specification states it, fails: after a first message that
    is not JSON the handler has ended with the decoding error; the session
    is not Active, and the well-formed message that follows (which on its
    own would produce a tick) is never processed. *)
Lemma C2_malformed_message_tears_session_down :
  let o := websocket_endpoint Ideal.kernels Ideal.pool5 (mkManager []) 7
             [Receive "not json" Ideal.env; Receive "{}" Ideal.env] in
  final o = Crashed (decode_error "Expecting value")
  /\ (forall idx, final o <> Active idx)
  /\ ticks o = []
  /\ length (ticks (websocket_endpoint Ideal.kernels Ideal.pool5
                      (mkManager []) 7 [Receive "{}" Ideal.env])) = 1.
Proof.
  cbv zeta.
  assert (E : websocket_endpoint Ideal.kernels Ideal.pool5 (mkManager []) 7
                [Receive "not json" Ideal.env; Receive "{}" Ideal.env]
              = mkOutcome [] (Crashed (decode_error "Expecting value"))
                  (mkManager [7]))
    by (vm_compute; reflexivity).
  rewrite E. cbn [final ticks].
  split; [reflexivity|]. split; [intros idx H; discriminate H|].
  split; [reflexivity|]. vm_compute. reflexivity.
Qed.

(** C2 (amended): a message that [json.loads] rejects ends the session.
    In a session that is Active after some earlier events, a text of at
    most 512 characters (too short for the decoder's recursion limit to
    play a part) that mentions neither NaN nor Infinity and that the
    decoder refuses makes the tick raise the [JSONDecodeError]; the
    handler, which catches only [WebSocketDisconnect], ends with that
    exception: nothing is sent for the tick, every later event is left
    unprocessed, and the connection is still listed in the manager. *)
Theorem C2_malformed_message_ends_handler
  (K : Kernels) (A : Artifacts) (m : ConnectionManager) (websocket : nat)
  (prefix rest : list event) (idx : nat) (data : string) (env : tick_env)
  (e : exn) :
  final (websocket_endpoint K A m websocket prefix) = Active idx ->
  String.length data <= 512 ->
  finite_literals data = true ->
  json_loads data = Raise e ->
  tick K A idx data env = Raise e
  /\ exc_type e = JSONDecodeError
  /\ ticks (websocket_endpoint K A m websocket
              (prefix ++ Receive data env :: rest))
     = ticks (websocket_endpoint K A m websocket prefix)
  /\ final (websocket_endpoint K A m websocket
              (prefix ++ Receive data env :: rest))
     = Crashed e
  /\ manager (websocket_endpoint K A m websocket
                (prefix ++ Receive data env :: rest))
     = connect m websocket.
Proof.
  intros Hactive _ _ Hloads.
  assert (Htick : tick K A idx data env = Raise e).
  { unfold tick. rewrite Hloads. reflexivity. }
  pose proof (json_loads_raises _ _ Hloads) as Hcls.
  assert (Hinst : isinstance e "WebSocketDisconnect" = false).
  { unfold isinstance. rewrite Hcls. reflexivity. }
  unfold websocket_endpoint in *.
  destruct (loop_app K A (connect m websocket) websocket prefix
              (Receive data env :: rest) 0 idx Hactive) as [_ ->].
  cbn [loop]. rewrite Htick, Hinst. cbn [ticks final manager].
  rewrite app_nil_r. repeat split; assumption.
Qed.

Lemma C2_malformed_message_ends_handler_witness :
  final (websocket_endpoint Ideal.kernels Ideal.pool5 (mkManager []) 7
           ([Receive "{}" Ideal.env]
            ++ Receive "not json" Ideal.env :: [Receive "{}" Ideal.env]))
  = Crashed (decode_error "Expecting value")
  /\ length (ticks (websocket_endpoint Ideal.kernels Ideal.pool5
                      (mkManager []) 7
                      ([Receive "{}" Ideal.env]
                       ++ Receive "not json" Ideal.env
                          :: [Receive "{}" Ideal.env]))) = 1.
Proof.
  destruct (C2_malformed_message_ends_handler
              Ideal.kernels Ideal.pool5 (mkManager []) 7
              [Receive "{}" Ideal.env] [Receive "{}" Ideal.env]
              1 "not json" Ideal.env (decode_error "Expecting value"))
    as (_ & _ & Ht & Hf & _).
  - vm_compute. reflexivity.
  - cbn. lia.
  - vm_compute. reflexivity.
  - vm_compute. reflexivity.
  - split; [exact Hf|]. rewrite Ht. vm_compute. reflexivity.
Defined.

(** *** The cursor *)

Lemma mod_shift_eq (p n d : nat) :
  0 < p -> ((n + d) mod p = n mod p <-> d mod p = 0).
Proof.
  intro Hp.
  rewrite (Nat.Div0.add_mod n d p).
  pose proof (Nat.mod_upper_bound n p ltac:(lia)) as Hn.
  pose proof (Nat.mod_upper_bound d p ltac:(lia)) as Hd.
  set (a := n mod p) in *. set (b := d mod p) in *.
  destruct (Nat.lt_ge_cases (a + b) p) as [Hlt|Hge].
  - rewrite (Nat.mod_small _ _ Hlt). lia.
  - replace (a + b) with ((a + b - p) + 1 * p) by lia.
    rewrite Nat.Div0.mod_add. rewrite Nat.mod_small by lia. lia.
Qed.

Lemma loop_cursors (K : Kernels) (A : Artifacts) (m : ConnectionManager)
  (websocket : nat) (events : list event) :
  forall idx,
    idx < length (X_test A) ->
    let o := loop K A m websocket idx events in
    map cursor (ticks o)
    = map (fun n => (idx + n) mod length (X_test A))
          (seq 0 (length (ticks o)))
    /\ (forall idx', final o = Active idx' ->
          idx' = (idx + length (ticks o)) mod length (X_test A)).
Proof.
  induction events as [|ev events IH]; intros idx Hidx; cbv zeta.
  - cbn. split; [reflexivity|].
    intros idx' H. injection H as <-.
    rewrite Nat.add_0_r. symmetry. now apply Nat.mod_small.
  - destruct ev as [data env|].
    + cbn [loop].
      destruct (tick K A idx data env) as [[p i]|e] eqn:E.
      * destruct (tick_cursor _ _ _ _ _ _ _ E) as [_ ->].
        assert (Hi : (idx + 1) mod length (X_test A) < length (X_test A))
          by (apply Nat.mod_upper_bound; lia).
        destruct (IH _ Hi) as [IHc IHf]. clear IH.
        cbn [ticks final map cursor length seq].
        split.
        -- f_equal.
           ++ rewrite Nat.add_0_r. symmetry. now apply Nat.mod_small.
           ++ rewrite IHc. rewrite <- seq_shift, map_map.
              apply map_ext. intro n.
              rewrite Nat.Div0.add_mod_idemp_l. f_equal. lia.
        -- intros idx' H. rewrite (IHf _ H).
           rewrite Nat.Div0.add_mod_idemp_l. f_equal. lia.
      * destruct (isinstance e "WebSocketDisconnect"); cbn;
          (split; [reflexivity|intros idx' H; discriminate H]).
    + cbn. split; [reflexivity|intros idx' H; discriminate H].
Qed.

(** C4: with a non-empty pool, in every session the n-th completed tick
    reads the cursor [n mod poolSize]; the cursor of a session waiting for
    its next message is [ticks mod poolSize], lies in [0, poolSize), and
    the pool lookup and the modular step at it succeed; two ticks read the
    same cursor exactly when their distance is a multiple of poolSize (the
    sequence has period exactly poolSize). *)
Theorem C4_cursor_cycles_through_pool
  (K : Kernels) (A : Artifacts) (m : ConnectionManager) (websocket : nat)
  (events : list event) :
  0 < length (X_test A) ->
  map cursor (ticks (websocket_endpoint K A m websocket events))
  = map (fun n => n mod length (X_test A))
        (seq 0 (length (ticks (websocket_endpoint K A m websocket events))))
  /\ (forall idx,
        final (websocket_endpoint K A m websocket events) = Active idx ->
        idx = length (ticks (websocket_endpoint K A m websocket events))
              mod length (X_test A)
        /\ idx < length (X_test A)
        /\ (exists spectrum, getitem (X_test A) idx = Ok spectrum)
        /\ py_mod (idx + 1) (length (X_test A))
           = Ok ((idx + 1) mod length (X_test A)))
  /\ (forall n d t t',
        nth_error (ticks (websocket_endpoint K A m websocket events)) n
        = Some t ->
        nth_error (ticks (websocket_endpoint K A m websocket events)) (n + d)
        = Some t' ->
        cursor t < length (X_test A)
        /\ (cursor t' = cursor t <-> d mod length (X_test A) = 0)).
Proof.
  intro Hp.
  unfold websocket_endpoint.
  destruct (loop_cursors K A (connect m websocket) websocket events 0 Hp)
    as [Hc Hf].
  cbn [Nat.add] in Hc, Hf.
  set (o := loop K A (connect m websocket) websocket 0 events) in *.
  assert (Hnth : forall n t, nth_error (ticks o) n = Some t ->
                             cursor t = n mod length (X_test A)).
  { intros n t Hn.
    pose proof (map_nth_error cursor _ _ Hn) as H.
    rewrite Hc in H.
    assert (Hlt : n < length (ticks o))
      by (apply nth_error_Some; congruence).
    rewrite (nth_error_map (fun n => n mod length (X_test A))) in H.
    rewrite nth_error_seq in H.
    replace (n <? length (ticks o))%nat with true in H
      by (symmetry; now apply Nat.ltb_lt).
    cbn in H. congruence. }
  split; [exact Hc|]. split.
  - intros idx H. rewrite (Hf _ H).
    assert (Hlt : length (ticks o) mod length (X_test A) < length (X_test A))
      by (apply Nat.mod_upper_bound; lia).
    split; [reflexivity|]. split; [exact Hlt|].
    split; [now apply getitem_lt|].
    unfold py_mod. destruct (length (X_test A)); [lia|reflexivity].
  - intros n d t t' Hn Hnd.
    rewrite (Hnth _ _ Hn), (Hnth _ _ Hnd).
    split; [apply Nat.mod_upper_bound; lia|].
    now apply mod_shift_eq.
Qed.

Lemma C4_cursor_cycles_through_pool_witness :
  length (X_test Ideal.pool5) = 5
  /\ map cursor
       (ticks (websocket_endpoint Ideal.kernels Ideal.pool5 (mkManager []) 7
                 (repeat (Receive "{}" Ideal.env) 10)))
     = [0; 1; 2; 3; 4; 0; 1; 2; 3; 4]
  /\ final (websocket_endpoint Ideal.kernels Ideal.pool5 (mkManager []) 7
              (repeat (Receive "{}" Ideal.env) 10))
     = Active 0.
Proof.
  destruct (C4_cursor_cycles_through_pool Ideal.kernels Ideal.pool5
              (mkManager []) 7 (repeat (Receive "{}" Ideal.env) 10))
    as (Hc & _ & _).
  - vm_compute. lia.
  - split; [reflexivity|]. split.
    + rewrite Hc.
      replace (length (ticks (websocket_endpoint Ideal.kernels Ideal.pool5
                                (mkManager []) 7
                                (repeat (Receive "{}" Ideal.env) 10))))
        with 10 by (vm_compute; reflexivity).
      reflexivity.
    + vm_compute. reflexivity.
Defined.

(** *** Report aggregation *)

Lemma breaches_count_below (bound : Q) (l : list Q) :
  length (filter (fun p => Qltb p bound) l) = count_below bound l.
Proof.
  induction l as [|p l IH]; cbn [filter count_below]; [reflexivity|].
  destruct (Qlt_le_dec p bound) as [Hlt|Hge].
  - apply Qltb_lt in Hlt. rewrite Hlt. cbn [length]. now rewrite IH.
  - apply Qltb_ge in Hge. rewrite Hge. now rewrite IH.
Qed.

Lemma Qsum_fold_right (l : list Q) :
  (Qsum l == fold_right Qplus 0 l)%Q.
Proof.
  induction l as [|x l IH]; [reflexivity|].
  rewrite Qsum_cons, IH. reflexivity.
Qed.

Lemma Qlen_nonzero {A : Type} (a : A) (l : list A) :
  Qeq_bool (Qlen (a :: l)) 0 = false.
Proof.
  unfold Qlen, Qeq_bool. cbn [Qnum Qden inject_Z length].
  apply Z.eqb_neq. lia.
Qed.

(** C7: for a non-empty list of predicted values the report is produced
    and shows the length of the list, the arithmetic mean of the list (the
    value that multiplied by the length gives the sum of the entries) and
    the number of entries strictly below 13.0; for the predicted values
    [10, 12, 14, 16] these are 4, 13.0 and 2. *)
Theorem C7_report_counts_mean_and_breaches :
  (forall data : ReportData,
      predicted_pol data <> [] ->
      exists r : report_figures,
        generate_report data = Ok r
        /\ total_samples r = length (predicted_pol data)
        /\ (avg_pol r * Qlen (predicted_pol data)
            == fold_right Qplus 0 (predicted_pol data))%Q
        /\ breaches r = count_below 13.0 (predicted_pol data))
  /\ (forall ts actual : list Q,
        exists r : report_figures,
          generate_report (mkReportData ts [10; 12; 14; 16]%Q actual) = Ok r
          /\ total_samples r = 4
          /\ (avg_pol r == 13.0)%Q
          /\ breaches r = 2).
Proof.
  split.
  - intros data Hne. unfold generate_report.
    destruct (predicted_pol data) as [|p l] eqn:E; [congruence|].
    unfold py_div. rewrite Qlen_nonzero. cbn [bind].
    eexists. split; [reflexivity|].
    cbn [total_samples avg_pol breaches].
    split; [reflexivity|]. split; [|apply breaches_count_below].
    rewrite <- Qsum_fold_right.
    field. intro H. apply (Qeq_bool_iff _ 0) in H.
    rewrite Qlen_nonzero in H. discriminate H.
  - intros ts actual. eexists. split; [reflexivity|]. repeat split.
Qed.

Lemma C7_report_counts_mean_and_breaches_witness :
  exists r : report_figures,
    generate_report (mkReportData [] [12.5; 13.0]%Q []) = Ok r
    /\ total_samples r = 2
    /\ (avg_pol r * 2 == 12.5 + (13.0 + 0))%Q
    /\ breaches r = 1.
Proof.
  apply (proj1 C7_report_counts_mean_and_breaches
           (mkReportData [] [12.5; 13.0]%Q [])).
  cbn. discriminate.
Defined.

(** C8: with no predicted values the report is produced all the same: the
    division is not attempted, no [ZeroDivisionError] is raised, and the
    sample count, the average and the number of alerts are all 0. *)
Theorem C8_empty_report_is_all_zero (ts actual : list Q) :
  generate_report (mkReportData ts [] actual) = Ok (mkFigures 0 0%Q 0)
  /\ py_div (Qsum []) (Qlen (@nil Q))
     = Raise (mkExn ZeroDivisionError "division by zero").
Proof. split; reflexivity. Qed.


(* ===================================================================== *)
(** ** Further properties of trainer.py *)
(* ===================================================================== *)

(** *** preprocess_spectra *)

(** X1: [preprocess_spectra] returns a result exactly for rank-2 inputs
    that have at least one row and rows of at least 15 samples.  An input
    narrower than 15 raises the filter's ValueError about the window, a
    rank-1 input of 15 samples or more raises the axis error, a batch
    without rows raises a ValueError, and whatever it raises is a
    ValueError. *)
Theorem X1_preprocess_returns_iff_wide_batch (K : Kernels) (X : ndarray) :
  (returned (trainer.preprocess_spectra K X) = true
   <-> ndim X = 2 /\ 15 <= shape_last X /\ 0 < nd_len X)
  /\ (shape_last X < 15 ->
      trainer.preprocess_spectra K X = Raise trainer.window_error)
  /\ (ndim X = 1 /\ 15 <= shape_last X ->
      trainer.preprocess_spectra K X = Raise axis_error)
  /\ (ndim X = 2 /\ nd_len X = 0 ->
      fails_with (trainer.preprocess_spectra K X) "ValueError")
  /\ (returned (trainer.preprocess_spectra K X) = false ->
      fails_with (trainer.preprocess_spectra K X) "ValueError").
Proof.
  assert (Hshort : shape_last X < 15 ->
            trainer.preprocess_spectra K X = Raise trainer.window_error).
  { intro Hlt. unfold trainer.preprocess_spectra, trainer.savgol_filter.
    replace (shape_last X <? 15)%nat with true
      by (symmetry; now apply Nat.ltb_lt).
    reflexivity. }
  assert (Hwin : fails_with (@Raise ndarray trainer.window_error) "ValueError")
    by (eexists; split; reflexivity).
  assert (Hax : fails_with (@Raise ndarray axis_error) "ValueError")
    by (eexists; split; reflexivity).
  destruct (Nat.lt_ge_cases (shape_last X) 15) as [Hlt|Hge].
  - rewrite (Hshort Hlt). cbn [returned].
    split; [split; [discriminate|intros (_ & H & _); lia]|].
    split; [reflexivity|].
    split; [intros [_ H]; lia|].
    split; intros _; exact Hwin.
  - destruct X as [v|n [|r rows]]; cbn [shape_last ndim nd_len length] in *.
    + rewrite (preprocess_rank1 K v Hge). cbn [returned].
      split; [split; [discriminate|intros (H & _); discriminate H]|].
      split; [lia|]. split; [reflexivity|].
      split; [intros [H _]; discriminate H|intros _; exact Hax].
    + rewrite preprocess_no_rows. cbn [returned].
      split; [split; [discriminate|intros (_ & _ & H); lia]|].
      split; [reflexivity|]. split; [intros [H _]; discriminate H|].
      split; intros _; exact Hwin.
    + rewrite preprocess_batch by (exact Hge || discriminate).
      cbn [returned].
      split; [split; [intros _; repeat split; lia|reflexivity]|].
      split; [lia|]. split; [intros [H _]; discriminate H|].
      split; [intros [_ H]; lia|discriminate].
Qed.

Lemma zip_with_repeat {A B C : Type} (f : A -> B -> C) (l : list A)
  (c : B) (n : nat) :
  length l = n ->
  zip_with f l (repeat c n) = map (fun x => f x c) l.
Proof.
  intros <-. unfold zip_with.
  induction l as [|x l IH]; cbn; [reflexivity|]. now rewrite IH.
Qed.

Lemma stretch_long {A : Type} (n : nat) (l : list A) :
  2 <= length l -> stretch n l = l.
Proof.
  destruct l as [|a [|b l]]; cbn; intro H; try lia. reflexivity.
Qed.

(** The row of the output written element by element. *)
Lemma preprocess_row_elementwise (K : Kernels) (n : nat) (r : list Q) :
  2 <= n ->
  length (savgol_row K 15 2 1 r) = n ->
  preprocess_row K n r
  = map (fun x => ((x - row_mean (savgol_row K 15 2 1 r))
                   / (trainer.row_std K (savgol_row K 15 2 1 r) + 1e-8))%Q)
        (savgol_row K 15 2 1 r).
Proof.
  intros Hn Hlen. unfold preprocess_row. cbv zeta.
  set (sg := savgol_row K 15 2 1 r) in *.
  rewrite (stretch_long n sg) by lia.
  cbn [stretch].
  rewrite (zip_with_repeat Qminus sg _ n Hlen).
  rewrite stretch_long by (rewrite length_map; lia).
  rewrite zip_with_repeat by (rewrite length_map; exact Hlen).
  rewrite map_map. reflexivity.
Qed.

(** X2: on a rectangular batch of at least one row, at least 15 wide,
    with a filter that keeps the length of a row, the result is a
    rectangular batch of the same shape, and each of its rows is the
    filtered input row with the row's own mean subtracted and the
    difference divided by the row's own standard deviation plus 1e-8,
    element by element. *)
Theorem X2_preprocess_standardises_each_row
  (K : Kernels) (n : nat) (rows : list (list Q)) :
  15 <= n ->
  rows <> [] ->
  rectangular (Arr2 n rows) ->
  (forall r, length (savgol_row K 15 2 1 r) = length r) ->
  exists out : list (list Q),
    trainer.preprocess_spectra K (Arr2 n rows) = Ok (Arr2 n out)
    /\ length out = length rows
    /\ rectangular (Arr2 n out)
    /\ (forall i r,
          nth_error rows i = Some r ->
          nth_error out i
          = Some (map (fun x =>
                         ((x - row_mean (savgol_row K 15 2 1 r))
                          / (trainer.row_std K (savgol_row K 15 2 1 r)
                             + 1e-8))%Q)
                      (savgol_row K 15 2 1 r))).
Proof.
  intros Hn Hrows Hrect Hlen.
  cbn [rectangular] in Hrect. rewrite Forall_forall in Hrect.
  exists (map (preprocess_row K n) rows).
  split; [now apply preprocess_batch|].
  split; [apply length_map|].
  split.
  - cbn [rectangular]. rewrite Forall_forall. intros o Ho.
    apply in_map_iff in Ho. destruct Ho as (r & <- & Hr).
    rewrite preprocess_row_elementwise;
      [|lia|rewrite Hlen; now apply Hrect].
    rewrite length_map, Hlen. now apply Hrect.
  - intros i r Hi.
    rewrite (map_nth_error _ _ _ Hi). f_equal.
    apply preprocess_row_elementwise; [lia|].
    rewrite Hlen. apply Hrect. eapply nth_error_In; eassumption.
Qed.

Lemma ideal_savgol_length (w p d : nat) (r : list Q) :
  length (savgol_row Ideal.kernels w p d r) = length r.
Proof.
  cbn [savgol_row Ideal.kernels]. unfold Ideal.savgol_order2_deriv1.
  now rewrite length_map, length_seq.
Qed.

Lemma X2_preprocess_standardises_each_row_witness :
  exists out : list (list Q),
    trainer.preprocess_spectra Ideal.kernels
      (Arr2 15 (map Ideal.spectrum (seq 0 5))) = Ok (Arr2 15 out)
    /\ length out = 5
    /\ rectangular (Arr2 15 out).
Proof.
  destruct (X2_preprocess_standardises_each_row Ideal.kernels 15
              (map Ideal.spectrum (seq 0 5)))
    as (out & H1 & H2 & H3 & _).
  - lia.
  - discriminate.
  - cbn [rectangular]. repeat constructor.
  - intro r. apply ideal_savgol_length.
  - exists out. repeat split; assumption.
Defined.

Lemma Qlen_cons {A : Type} (a : A) (l : list A) :
  (Qlen (a :: l) == 1 + Qlen l)%Q.
Proof.
  unfold Qlen. cbn [length]. rewrite Nat2Z.inj_succ.
  unfold Z.succ. rewrite inject_Z_plus. ring.
Qed.

Lemma Qsum_standardised (l : list Q) (m d : Q) :
  (Qsum (map (fun x => (x - m) / d) l) == (Qsum l - Qlen l * m) / d)%Q.
Proof.
  induction l as [|x l IH]; cbn [map].
  - unfold Qsum, Qlen, Qdiv. cbn. ring.
  - rewrite !Qsum_cons, IH, Qlen_cons. unfold Qdiv. ring.
Qed.

Lemma Qsum_centred (l : list Q) :
  l <> [] -> (Qsum l - Qlen l * row_mean l == 0)%Q.
Proof.
  intro Hne. unfold row_mean.
  destruct l as [|x l]; [congruence|].
  field. intro H. apply (Qeq_bool_iff _ 0) in H.
  rewrite Qlen_nonzero in H. discriminate H.
Qed.

Lemma ideal_sqrt_nonneg (q : Q) : (0 <= np_sqrt Ideal.kernels q)%Q.
Proof.
  cbn [np_sqrt Ideal.kernels]. unfold Ideal.sqrt8.
  destruct (Qle_bool (Qred q) 0); [apply Qle_refl|].
  rewrite Qred_correct. unfold Qle. cbn [Qnum Qden].
  rewrite Z.mul_0_l, Z.mul_1_r. apply Z.sqrt_nonneg.
Qed.

(** X3: scatter correction centres every row.  On a rectangular batch of
    at least one row, at least 15 wide, with a filter that keeps the
    length of a row and a square root that is never negative, every
    divisor (standard deviation plus 1e-8) is positive, and the entries
    of every output row add up to zero, so every output row has mean
    zero. *)
Theorem X3_preprocessed_rows_have_zero_mean
  (K : Kernels) (n : nat) (rows : list (list Q)) :
  15 <= n ->
  rows <> [] ->
  rectangular (Arr2 n rows) ->
  (forall r, length (savgol_row K 15 2 1 r) = length r) ->
  (forall q, (0 <= np_sqrt K q)%Q) ->
  exists out : list (list Q),
    trainer.preprocess_spectra K (Arr2 n rows) = Ok (Arr2 n out)
    /\ (forall r, In r rows ->
          (0 < trainer.row_std K (savgol_row K 15 2 1 r) + 1e-8)%Q)
    /\ (forall o, In o out -> (Qsum o == 0)%Q /\ (row_mean o == 0)%Q).
Proof.
  intros Hn Hrows Hrect Hlen Hsqrt.
  assert (Hout : trainer.preprocess_spectra K (Arr2 n rows)
                 = Ok (Arr2 n (map (preprocess_row K n) rows)))
    by now apply preprocess_batch.
  exists (map (preprocess_row K n) rows). split; [exact Hout|]. split.
  - intros r _. unfold trainer.row_std.
    apply Qlt_le_trans with (0 + 1e-8)%Q; [reflexivity|].
    apply Qplus_le_compat; [apply Hsqrt|apply Qle_refl].
  - intros o Ho.
    assert (Hsum : (Qsum o == 0)%Q).
    { apply in_map_iff in Ho. destruct Ho as (r & <- & Hr).
      cbn [rectangular] in Hrect. rewrite Forall_forall in Hrect.
      rewrite preprocess_row_elementwise;
        [|lia|rewrite Hlen; now apply Hrect].
      rewrite Qsum_standardised.
      rewrite Qsum_centred.
      - unfold Qdiv. ring.
      - intro E. apply (f_equal (@length Q)) in E.
        rewrite Hlen, (Hrect r Hr) in E. cbn in E. lia. }
    split; [exact Hsum|].
    unfold row_mean. rewrite Hsum. unfold Qdiv. ring.
Qed.

Lemma X3_preprocessed_rows_have_zero_mean_witness :
  exists out : list (list Q),
    trainer.preprocess_spectra Ideal.kernels
      (Arr2 15 (map Ideal.spectrum (seq 0 5))) = Ok (Arr2 15 out)
    /\ (forall o, In o out -> (Qsum o == 0)%Q /\ (row_mean o == 0)%Q).
Proof.
  destruct (X3_preprocessed_rows_have_zero_mean Ideal.kernels 15
              (map Ideal.spectrum (seq 0 5)))
    as (out & H1 & _ & H3).
  - lia.
  - discriminate.
  - cbn [rectangular]. repeat constructor.
  - intro r. apply ideal_savgol_length.
  - apply ideal_sqrt_nonneg.
  - exists out. split; assumption.
Defined.

(** *** main: the saved pool *)

Lemma preprocess_Ok_inv (K : Kernels) (X P : ndarray) :
  trainer.preprocess_spectra K X = Ok P ->
  exists (n : nat) (rows : list (list Q)),
    X = Arr2 n rows /\ 15 <= n /\ rows <> []
    /\ P = Arr2 n (map (preprocess_row K n) rows).
Proof.
  intro H.
  destruct (Nat.lt_ge_cases (shape_last X) 15) as [Hlt|Hge].
  - unfold trainer.preprocess_spectra, trainer.savgol_filter in H.
    replace (shape_last X <? 15)%nat with true in H
      by (symmetry; now apply Nat.ltb_lt).
    discriminate H.
  - destruct X as [v|n [|r rows]]; cbn [shape_last] in Hge.
    + rewrite preprocess_rank1 in H by exact Hge. discriminate H.
    + rewrite preprocess_no_rows in H. discriminate H.
    + rewrite preprocess_batch in H by (exact Hge || discriminate).
      injection H as <-.
      exists n, (r :: rows). repeat split; [exact Hge|discriminate].
Qed.

Lemma In_skipn {A : Type} (k : nat) (l : list A) (x : A) :
  In x (skipn k l) -> In x l.
Proof.
  intro H. rewrite <- (firstn_skipn k l). apply in_or_app. now right.
Qed.

Lemma head_split_sizes : split_sizes head_split.
Proof.
  intros X y Hy. unfold head_split. cbv zeta.
  cbn [split_X_train split_X_test split_y_test].
  set (k := nd_len X - nd_len X / 5).
  assert (Hk : k <= nd_len X) by (subst k; lia).
  destruct X as [v|n rows]; cbn [nd_len nd_from] in *;
    rewrite length_firstn, !length_skipn; lia.
Qed.

(** X5: when [main] gets as far as saving, with as many labels as rows
    and a split that shares the rows out, the saved pool X_test_raw.npy
    holds the last rows of the raw data set, as many as there are saved
    test labels, so every index of the one is an index of the other; the
    rows are at least 15 samples wide, and if the data set is rectangular
    so is the pool. *)
Theorem X5_saved_pool_is_tail_of_data_matching_labels
  (K : Kernels) (SK : Sklearn) (train_test_split : ndarray -> list Q -> Split)
  (X : ndarray) (y : list Q) (s : Saved (fitted SK)) :
  split_sizes train_test_split ->
  length y = nd_len X ->
  main_saved K SK train_test_split X y = Ok s ->
  exists (n : nat) (rows : list (list Q)),
    X = Arr2 n rows
    /\ 15 <= n
    /\ X_test_raw_npy s
       = Arr2 n (skipn (length rows - length (y_test_npy s)) rows)
    /\ length (y_test_npy s) <= length rows
    /\ nd_len (X_test_raw_npy s) = length (y_test_npy s)
    /\ (rectangular X -> rectangular (X_test_raw_npy s)).
Proof.
  intros Hsplit Hy H. unfold main_saved in H.
  destruct (trainer.preprocess_spectra K X) as [P|e] eqn:EP;
    [|discriminate H].
  cbn [bind] in H. cbv zeta in H.
  destruct (trainer.train_pls SK _ _) as [pls|e]; [|discriminate H].
  cbn [bind] in H. injection H as <-.
  destruct (preprocess_Ok_inv K X P EP) as (n & rows & -> & Hn & _ & ->).
  cbn [X_test_raw_npy y_test_npy nd_len nd_from] in *.
  destruct (Hsplit (Arr2 n (map (preprocess_row K n) rows)) y) as [H1 H2].
  { cbn [nd_len]. now rewrite length_map. }
  cbn [nd_len] in H1. rewrite length_map in H1.
  set (sp := train_test_split (Arr2 n (map (preprocess_row K n) rows)) y) in *.
  exists n, rows.
  split; [reflexivity|]. split; [exact Hn|].
  split; [f_equal; f_equal; lia|].
  split; [lia|].
  split; [rewrite length_skipn; lia|].
  cbn [rectangular]. rewrite !Forall_forall.
  intros Hrect r Hr. apply Hrect. eapply In_skipn; eassumption.
Qed.

Lemma X5_saved_pool_is_tail_of_data_matching_labels_witness :
  exists (s : Saved nat) (n : nat) (rows : list (list Q)),
    main_saved Ideal.kernels reference_sklearn head_split
      (training_rows 25) (training_labels 25)
    = Ok s
    /\ y_test_npy s = [30; 31; 32; 33; 34]%Q
    /\ pls_model_pkl s = 3
    /\ training_rows 25 = Arr2 n rows
    /\ 15 <= n
    /\ X_test_raw_npy s
       = Arr2 n (skipn (length rows - length (y_test_npy s)) rows)
    /\ length (y_test_npy s) <= length rows
    /\ nd_len (X_test_raw_npy s) = length (y_test_npy s)
    /\ (rectangular (training_rows 25) -> rectangular (X_test_raw_npy s)).
Proof.
  destruct (main_saved Ideal.kernels reference_sklearn head_split
              (training_rows 25) (training_labels 25)) as [s|e] eqn:E;
    [|vm_compute in E; discriminate E].
  destruct (X5_saved_pool_is_tail_of_data_matching_labels
              Ideal.kernels reference_sklearn head_split
              (training_rows 25) (training_labels 25) s
              head_split_sizes eq_refl E)
    as (n & rows & H).
  exists s, n, rows. split; [reflexivity|].
  split; [vm_compute in E; injection E as <-; reflexivity|].
  split; [vm_compute in E; injection E as <-; reflexivity|].
  exact H.
Defined.

(** *** load_data: the feature columns *)

Lemma forallb_digits (s : string) :
  forallb load_data.is_digit_char (list_ascii_of_string s) = digits_only s.
Proof.
  induction s as [|c s IH]; cbn; [reflexivity|]. now rewrite IH.
Qed.

Lemma isdigit_digits (s : string) :
  load_data.isdigit s = true <-> digits_only s = true /\ s <> EmptyString.
Proof.
  destruct s as [|c s].
  - cbn. split; [discriminate|intros [_ H]; congruence].
  - unfold load_data.isdigit. rewrite forallb_digits.
    split; [intro H; split; [exact H|discriminate]|intros [H _]; exact H].
Qed.

Lemma digits_only_app (a b : string) :
  digits_only (a ++ b) = digits_only a && digits_only b.
Proof.
  induction a as [|c a IH]; cbn; [reflexivity|].
  rewrite IH. now rewrite andb_assoc.
Qed.

Lemma replace_dot_once_digits (a b : string) :
  digits_only a = true ->
  load_data.replace_dot_once (a ++ String "." b) = (a ++ b)%string.
Proof.
  induction a as [|c a IH]; cbn [append load_data.replace_dot_once digits_only].
  - reflexivity.
  - intro H. apply andb_true_iff in H. destruct H as [Hc Ha].
    destruct (Ascii.eqb c ".") eqn:E.
    + apply Ascii.eqb_eq in E. subst c. discriminate Hc.
    + now rewrite IH.
Qed.

Lemma replace_dot_once_no_dot (s : string) :
  digits_only s = true -> load_data.replace_dot_once s = s.
Proof.
  induction s as [|c s IH]; cbn [load_data.replace_dot_once digits_only].
  - reflexivity.
  - intro H. apply andb_true_iff in H. destruct H as [Hc Hs].
    destruct (Ascii.eqb c ".") eqn:E.
    + apply Ascii.eqb_eq in E. subst c. discriminate Hc.
    + now rewrite IH.
Qed.

Lemma replace_dot_once_inv (s : string) :
  digits_only (load_data.replace_dot_once s) = true ->
  digits_only s = true
  \/ exists a b : string,
       s = (a ++ String "." b)%string
       /\ digits_only a = true /\ digits_only b = true.
Proof.
  induction s as [|c s IH]; cbn [load_data.replace_dot_once].
  - now left.
  - destruct (Ascii.eqb c ".") eqn:E.
    + apply Ascii.eqb_eq in E. subst c. intro H.
      right. exists EmptyString, s. repeat split. exact H.
    + cbn [digits_only]. intro H.
      apply andb_true_iff in H. destruct H as [Hc Hs].
      destruct (IH Hs) as [Hd|(a & b & -> & Ha & Hb)].
      * left. now rewrite Hc, Hd.
      * right. exists (String c a), b. cbn [append digits_only].
        rewrite Hc, Ha. repeat split. exact Hb.
Qed.

(** X6: a column is taken as a feature exactly when its name starts with
    "amplitude", or is a non-empty run of decimal digits, or is two runs
    of decimal digits joined by one dot with at least one digit in all
    (so "7.5", "7." and ".5" are taken; ".", "1.2.3", "-5" and "1e3" are
    not, unless prefixed). *)
Theorem X6_wavelength_column_names (col : string) :
  load_data.is_wavelength_col col = true
  <-> String.prefix "amplitude" col = true
      \/ (digits_only col = true /\ col <> EmptyString)
      \/ exists a b : string,
           col = (a ++ String "." b)%string
           /\ digits_only a = true /\ digits_only b = true
           /\ (a ++ b)%string <> EmptyString.
Proof.
  unfold load_data.is_wavelength_col.
  rewrite orb_true_iff, isdigit_digits.
  split.
  - intros [H|[Hd Hne]]; [now left|right].
    destruct (replace_dot_once_inv col Hd) as [Hc|(a & b & -> & Ha & Hb)].
    + left. split; [exact Hc|].
      rewrite replace_dot_once_no_dot in Hne by exact Hc. exact Hne.
    + right. exists a, b.
      rewrite replace_dot_once_digits in Hne by exact Ha.
      repeat split; assumption.
  - intros [H|[[Hd Hne]|(a & b & -> & Ha & Hb & Hne)]]; [now left| |].
    + right. rewrite replace_dot_once_no_dot by exact Hd. now split.
    + right. rewrite replace_dot_once_digits by exact Ha.
      split; [|exact Hne]. rewrite digits_only_app, Ha, Hb. reflexivity.
Qed.

(* ===================================================================== *)
(** ** Further properties of backend/server.py *)
(* ===================================================================== *)

(** *** add_industrial_noise *)

Lemma nonneg_scale_accepted (q : Q) : (0 <= q)%Q -> Qltb q 0 = false.
Proof. intro H. now apply Qltb_ge. Qed.

Lemma nth_error_zip_with {A B C : Type} (f : A -> B -> C)
  (l1 : list A) (l2 : list B) (i : nat) (a : A) (b : B) :
  nth_error l1 i = Some a -> nth_error l2 i = Some b ->
  nth_error (zip_with f l1 l2) i = Some (f a b).
Proof.
  revert l2 i. unfold zip_with.
  induction l1 as [|x l1 IH]; intros [|y l2] [|i] H1 H2;
    cbn in *; try discriminate.
  - injection H1 as ->. injection H2 as ->. reflexivity.
  - now apply IH.
Qed.

Lemma length_zip_with {A B C : Type} (f : A -> B -> C)
  (l1 : list A) (l2 : list B) :
  length (zip_with f l1 l2) = Nat.min (length l1) (length l2).
Proof.
  unfold zip_with. now rewrite length_map, length_combine.
Qed.

(** X7: with a noise level that is not negative, [add_industrial_noise]
    returns a spectrum of the same length, whose sample [i] is the input
    sample multiplied by one plus the noise level times the i-th normal
    deviate, plus one drift shared by all samples, which is 0.02 times
    the uniform deviate minus 0.01. *)
Theorem X7_noise_is_multiplicative_with_shared_drift
  (env : tick_env) (spectrum : list Q) (noise_level : Q) :
  (0 <= noise_level)%Q ->
  exists out : list Q,
    add_industrial_noise env spectrum noise_level = Ok out
    /\ length out = length spectrum
    /\ (forall i s,
          nth_error spectrum i = Some s ->
          exists o,
            nth_error out i = Some o
            /\ (o == s * (1 + noise_level * std_normal env i)
                     + (0.02 * unit_uniform env - 0.01))%Q).
Proof.
  intro Hpos. unfold add_industrial_noise, np_random_normal.
  rewrite (nonneg_scale_accepted _ Hpos). cbn [bind].
  eexists. split; [reflexivity|]. split.
  - rewrite length_zip_with, length_map, length_seq. apply Nat.min_id.
  - intros i s Hi.
    assert (Hlt : i < length spectrum)
      by (apply nth_error_Some; congruence).
    eexists. split.
    + apply nth_error_zip_with; [exact Hi|].
      rewrite nth_error_map, nth_error_seq.
      replace (i <? length spectrum)%nat with true
        by (symmetry; now apply Nat.ltb_lt).
      reflexivity.
    + cbn [Nat.add]. unfold np_random_uniform. ring.
Qed.

Lemma X7_noise_is_multiplicative_with_shared_drift_witness :
  exists out : list Q,
    add_industrial_noise Ideal.env (Ideal.spectrum 1) 0.5 = Ok out
    /\ length out = 15
    /\ (forall i s,
          nth_error (Ideal.spectrum 1) i = Some s ->
          exists o,
            nth_error out i = Some o
            /\ (o == s * (1 + 0.5 * std_normal Ideal.env i)
                     + (0.02 * unit_uniform Ideal.env - 0.01))%Q).
Proof.
  apply (X7_noise_is_multiplicative_with_shared_drift
           Ideal.env (Ideal.spectrum 1) 0.5).
  discriminate.
Defined.

(** X8: at noise level zero the spectrum is only shifted by the drift:
    the output has the length of the input, and when the uniform deviate
    lies in [0, 1) every output sample lies within 0.01 of the input
    sample, at or above it minus 0.01 and strictly below it plus 0.01. *)
Theorem X8_zero_noise_moves_samples_by_at_most_the_drift
  (env : tick_env) (spectrum : list Q) (noise_level : Q) :
  (noise_level == 0)%Q ->
  (0 <= unit_uniform env)%Q ->
  (unit_uniform env < 1)%Q ->
  exists out : list Q,
    add_industrial_noise env spectrum noise_level = Ok out
    /\ length out = length spectrum
    /\ (forall i s,
          nth_error spectrum i = Some s ->
          exists o,
            nth_error out i = Some o
            /\ (s - 0.01 <= o)%Q /\ (o < s + 0.01)%Q).
Proof.
  intros Hzero Hu0 Hu1. unfold add_industrial_noise, np_random_normal.
  rewrite nonneg_scale_accepted by (rewrite Hzero; apply Qle_refl).
  cbn [bind].
  eexists. split; [reflexivity|]. split.
  - rewrite length_zip_with, length_map, length_seq. apply Nat.min_id.
  - intros i s Hi.
    assert (Hlt : i < length spectrum)
      by (apply nth_error_Some; congruence).
    eexists. split.
    + apply nth_error_zip_with; [exact Hi|].
      rewrite nth_error_map, nth_error_seq.
      replace (i <? length spectrum)%nat with true
        by (symmetry; now apply Nat.ltb_lt).
      reflexivity.
    + cbn [Nat.add]. unfold np_random_uniform.
      set (u := unit_uniform env) in *.
      set (z := std_normal env i).
      assert (E : (s * (1 + (0 + noise_level * z)) + (-0.01 + (0.01 - -0.01) * u)
                   == s + (0.02 * u - 0.01))%Q)
        by (rewrite Hzero; ring).
      rewrite E. split; lra.
Qed.

Lemma X8_zero_noise_moves_samples_by_at_most_the_drift_witness :
  exists out : list Q,
    add_industrial_noise Ideal.env (Ideal.spectrum 1) 0 = Ok out
    /\ length out = 15
    /\ (forall i s,
          nth_error (Ideal.spectrum 1) i = Some s ->
          exists o,
            nth_error out i = Some o
            /\ (s - 0.01 <= o)%Q /\ (o < s + 0.01)%Q).
Proof.
  apply (X8_zero_noise_moves_samples_by_at_most_the_drift
           Ideal.env (Ideal.spectrum 1) 0).
  - reflexivity.
  - discriminate.
  - reflexivity.
Defined.

(** *** ConnectionManager *)

Lemma py_list_remove_present (x : nat) (l : list nat) :
  In x l -> py_list_remove x l = Ok (list_remove x l).
Proof.
  induction l as [|y l IH]; intro H; [destruct H|].
  cbn [py_list_remove list_remove].
  destruct (x =? y)%nat eqn:E; [reflexivity|].
  apply Nat.eqb_neq in E.
  destruct H as [->|H]; [congruence|].
  now rewrite IH.
Qed.

Lemma py_list_remove_absent (x : nat) (l : list nat) :
  ~ In x l ->
  py_list_remove x l = Raise (mkExn ValueError "list.remove(x): x not in list").
Proof.
  induction l as [|y l IH]; intro H; [reflexivity|].
  cbn [py_list_remove].
  destruct (x =? y)%nat eqn:E.
  - apply Nat.eqb_eq in E. subst y. exfalso. apply H. now left.
  - rewrite IH; [reflexivity|]. intro Hin. apply H. now right.
Qed.

Lemma list_remove_app_fresh (x : nat) (l : list nat) :
  ~ In x l -> list_remove x (l ++ [x]) = l.
Proof.
  induction l as [|y l IH]; intro H; cbn [app list_remove].
  - now rewrite Nat.eqb_refl.
  - destruct (x =? y)%nat eqn:E.
    + apply Nat.eqb_eq in E. subst y. exfalso. apply H. now left.
    + rewrite IH; [reflexivity|]. intro Hin. apply H. now right.
Qed.

Lemma list_remove_others (x c : nat) (l : list nat) :
  c <> x -> count_occ Nat.eq_dec (list_remove x l) c = count_occ Nat.eq_dec l c.
Proof.
  intro Hc. induction l as [|y l IH]; [reflexivity|].
  cbn [list_remove].
  destruct (x =? y)%nat eqn:E.
  - apply Nat.eqb_eq in E. subst y.
    cbn [count_occ]. destruct (Nat.eq_dec x c); [congruence|reflexivity].
  - cbn [count_occ]. destruct (Nat.eq_dec y c); now rewrite IH.
Qed.

Lemma list_remove_self (x : nat) (l : list nat) :
  In x l ->
  S (count_occ Nat.eq_dec (list_remove x l) x) = count_occ Nat.eq_dec l x.
Proof.
  induction l as [|y l IH]; intro H; [destruct H|].
  cbn [list_remove].
  destruct (x =? y)%nat eqn:E.
  - apply Nat.eqb_eq in E. subst y.
    cbn [count_occ]. destruct (Nat.eq_dec x x); [reflexivity|congruence].
  - apply Nat.eqb_neq in E.
    destruct H as [->|H]; [congruence|].
    cbn [count_occ]. destruct (Nat.eq_dec y x); [congruence|]. now apply IH.
Qed.

(** X9: [ConnectionManager.disconnect] fails exactly for a connection
    that is not registered (the list's ValueError); for a registered one
    it returns a manager in which that connection is listed once less and
    every other connection as often as before. *)
Theorem X9_disconnect_removes_one_registration
  (m : ConnectionManager) (websocket : nat) :
  (fails_with (manager_disconnect m websocket) "ValueError"
   <-> ~ In websocket (active_connections m))
  /\ (In websocket (active_connections m) ->
      exists m' : ConnectionManager,
        manager_disconnect m websocket = Ok m'
        /\ m' = disconnect m websocket
        /\ S (count_occ Nat.eq_dec (active_connections m') websocket)
           = count_occ Nat.eq_dec (active_connections m) websocket
        /\ (forall c, c <> websocket ->
              count_occ Nat.eq_dec (active_connections m') c
              = count_occ Nat.eq_dec (active_connections m) c)).
Proof.
  unfold manager_disconnect. split.
  - split.
    + intros [e [He _]] Hin.
      rewrite (py_list_remove_present _ _ Hin) in He. discriminate He.
    + intro Hnot. rewrite (py_list_remove_absent _ _ Hnot).
      eexists. split; reflexivity.
  - intro Hin. rewrite (py_list_remove_present _ _ Hin). cbn [bind].
    eexists. split; [reflexivity|]. split; [reflexivity|].
    cbn [active_connections]. split.
    + now apply list_remove_self.
    + intros c Hc. now apply list_remove_others.
Qed.

(** X10: connecting a connection that is not yet registered and then
    disconnecting it gives back the manager as it was; the new
    connection is registered last, after the ones already there. *)
Theorem X10_connect_then_disconnect_restores_manager
  (m : ConnectionManager) (websocket : nat) :
  ~ In websocket (active_connections m) ->
  active_connections (connect m websocket)
  = (active_connections m ++ [websocket])%list
  /\ manager_disconnect (connect m websocket) websocket = Ok m.
Proof.
  intro Hfresh. split; [reflexivity|].
  unfold manager_disconnect, connect. cbn [active_connections].
  rewrite py_list_remove_present by (apply in_or_app; right; now left).
  cbn [bind]. rewrite list_remove_app_fresh by exact Hfresh.
  now destruct m.
Qed.

Lemma X10_connect_then_disconnect_restores_manager_witness :
  active_connections (connect (mkManager [3; 5]) 7) = [3; 5; 7]
  /\ manager_disconnect (connect (mkManager [3; 5]) 7) 7
     = Ok (mkManager [3; 5]).
Proof.
  apply (X10_connect_then_disconnect_restores_manager (mkManager [3; 5]) 7).
  cbn. lia.
Defined.

(** *** The session loop: how a session ends *)

Lemma loop_manager (K : Kernels) (A : Artifacts) (m : ConnectionManager)
  (websocket : nat) (events : list event) :
  forall idx,
    match final (loop K A m websocket idx events) with
    | Closed => manager (loop K A m websocket idx events)
                = disconnect m websocket
    | _ => manager (loop K A m websocket idx events) = m
    end.
Proof.
  induction events as [|ev events IH]; intro idx; [reflexivity|].
  destruct ev as [data env|]; [|reflexivity].
  cbn [loop].
  destruct (tick K A idx data env) as [[p i]|e].
  - cbn [final manager]. apply IH.
  - destruct (isinstance e "WebSocketDisconnect"); reflexivity.
Qed.

(** X11: the registry after a session.  A session that ended on a
    disconnect has removed its connection with a removal that cannot
    fail, and if the connection was not registered before, the manager is
    back to what it was before the session; a session that is still
    waiting, or that ended on any other exception, leaves its connection
    registered. *)
Theorem X11_registry_after_session
  (K : Kernels) (A : Artifacts) (m : ConnectionManager) (websocket : nat)
  (events : list event) :
  match final (websocket_endpoint K A m websocket events) with
  | Closed =>
      manager_disconnect (connect m websocket) websocket
      = Ok (manager (websocket_endpoint K A m websocket events))
      /\ (~ In websocket (active_connections m) ->
          manager (websocket_endpoint K A m websocket events) = m)
  | _ =>
      manager (websocket_endpoint K A m websocket events)
      = connect m websocket
      /\ In websocket
           (active_connections
              (manager (websocket_endpoint K A m websocket events)))
  end.
Proof.
  unfold websocket_endpoint.
  pose proof (loop_manager K A (connect m websocket) websocket events 0) as H.
  assert (Hin : In websocket (active_connections (connect m websocket)))
    by (cbn; apply in_or_app; right; now left).
  destruct (final (loop K A (connect m websocket) websocket 0 events)).
  - rewrite H. split; [reflexivity|exact Hin].
  - rewrite H. split.
    + unfold manager_disconnect.
      now rewrite (py_list_remove_present _ _ Hin).
    + intro Hfresh. unfold disconnect, connect. cbn [active_connections].
      rewrite list_remove_app_fresh by exact Hfresh. now destruct m.
  - rewrite H. split; [reflexivity|exact Hin].
Qed.

Lemma loop_stops (K : Kernels) (A : Artifacts) (m : ConnectionManager)
  (websocket : nat) (events more : list event) :
  forall idx,
    (forall idx', final (loop K A m websocket idx events) <> Active idx') ->
    loop K A m websocket idx (events ++ more)
    = loop K A m websocket idx events.
Proof.
  induction events as [|ev events IH]; intros idx H.
  - exfalso. apply (H idx). reflexivity.
  - destruct ev as [data env|]; [|reflexivity].
    cbn [app loop] in *.
    destruct (tick K A idx data env) as [[p i]|e]; [|reflexivity].
    cbn [final] in H. now rewrite IH.
Qed.

(** X12: nothing is done for a session that has ended.  Once the handler
    has ended, on a disconnect or on an exception, whatever arrives
    afterwards changes nothing: no further tick, the same final state,
    the same registry. *)
Theorem X12_ended_session_ignores_later_events
  (K : Kernels) (A : Artifacts) (m : ConnectionManager) (websocket : nat)
  (events more : list event) :
  (forall idx,
      final (websocket_endpoint K A m websocket events) <> Active idx) ->
  websocket_endpoint K A m websocket (events ++ more)
  = websocket_endpoint K A m websocket events.
Proof.
  unfold websocket_endpoint. apply loop_stops.
Qed.

Lemma X12_ended_session_ignores_later_events_witness :
  websocket_endpoint Ideal.kernels Ideal.pool5 (mkManager []) 7
    ([Receive "{}" Ideal.env; Disconnected] ++ [Receive "{}" Ideal.env])
  = websocket_endpoint Ideal.kernels Ideal.pool5 (mkManager []) 7
      [Receive "{}" Ideal.env; Disconnected].
Proof.
  apply (X12_ended_session_ignores_later_events Ideal.kernels Ideal.pool5
           (mkManager []) 7 [Receive "{}" Ideal.env; Disconnected]
           [Receive "{}" Ideal.env]).
  intros idx H. vm_compute in H. discriminate H.
Defined.

Lemma loop_ticks_bound (K : Kernels) (A : Artifacts) (m : ConnectionManager)
  (websocket : nat) (events : list event) :
  forall idx,
    length (ticks (loop K A m websocket idx events)) <= length events
    /\ (forall idx', final (loop K A m websocket idx events) = Active idx' ->
          length (ticks (loop K A m websocket idx events)) = length events
          /\ Forall (fun ev => ev <> Disconnected) events).
Proof.
  induction events as [|ev events IH]; intro idx.
  - cbn. split; [lia|]. intros _ _. split; [reflexivity|constructor].
  - destruct ev as [data env|].
    + cbn [loop].
      destruct (tick K A idx data env) as [[p i]|e].
      * cbn [ticks final length]. destruct (IH i) as [H1 H2].
        split; [lia|]. intros idx' H. destruct (H2 _ H) as [H3 H4].
        split; [lia|]. constructor; [discriminate|exact H4].
      * destruct (isinstance e "WebSocketDisconnect"); cbn;
          (split; [lia|intros idx' H; discriminate H]).
    + cbn. split; [lia|intros idx' H; discriminate H].
Qed.

(** X13: the handler only answers.  A session sends at most one payload
    per event delivered to it, and a session that is still waiting for
    its next message has received text frames only and has answered
    every one of them. *)
Theorem X13_one_payload_per_message_at_most
  (K : Kernels) (A : Artifacts) (m : ConnectionManager) (websocket : nat)
  (events : list event) :
  length (ticks (websocket_endpoint K A m websocket events)) <= length events
  /\ (forall idx,
        final (websocket_endpoint K A m websocket events) = Active idx ->
        length (ticks (websocket_endpoint K A m websocket events))
        = length events
        /\ Forall (fun ev => ev <> Disconnected) events).
Proof.
  unfold websocket_endpoint. apply loop_ticks_bound.
Qed.

Lemma X9_disconnect_removes_one_registration_witness :
  exists m' : ConnectionManager,
    manager_disconnect (mkManager [3; 7; 5; 7]) 7 = Ok m'
    /\ m' = mkManager [3; 5; 7].
Proof.
  destruct (proj2 (X9_disconnect_removes_one_registration
                     (mkManager [3; 7; 5; 7]) 7))
    as (m' & H1 & H2 & _).
  - cbn. lia.
  - exists m'. split; [exact H1|]. rewrite H2. reflexivity.
Defined.

(** *** The tick: when it completes and what it sends *)

Lemma tick_completes (K : Kernels) (A : Artifacts) (idx : nat)
  (data : string) (env : tick_env) :
  serviceable A ->
  acceptable_message data ->
  idx < length (X_test A) ->
  exists p : Payload.t,
    tick K A idx data env = Ok (p, (idx + 1) mod length (X_test A))
    /\ nth_error (y_test A) idx = Some (Payload.actual_pol p)
    /\ (exists raw, nth_error (X_test A) idx = Some raw
                    /\ length (Payload.noisy_spectrum p) = length raw)
    /\ Payload.timestamp p = clock env 2
    /\ Payload.inference_ms p = ((clock env 1 - clock env 0) * 1000)%Q.
Proof.
  intros (Hpool & Hlab & Hwide & Hpls & Hiso)
         (members & q & t & _ & Hloads & Hq & Hqpos & _ & Ht) Hidx.
  assert (Hq0 : (0 <= q)%Q) by now apply Qlt_le_weak.
  destruct (getitem_lt _ _ Hidx) as [raw EX].
  destruct (getitem_lt (y_test A) idx ltac:(lia)) as [actual Ey].
  assert (Hraw : 15 <= length raw).
  { rewrite Forall_forall in Hwide. apply Hwide.
    apply getitem_Ok in EX. destruct EX as [EX _].
    eapply nth_error_In; eassumption. }
  assert (Hscale : Qltb (q / 100.0) 0 = false).
  { apply Qltb_ge. unfold Qdiv.
    setoid_replace 0%Q with (0 * / 100.0)%Q by ring.
    apply Qmult_le_compat_r; [exact Hq0|discriminate]. }
  unfold tick. rewrite Hloads. cbn [bind].
  rewrite get_object. cbn [bind]. rewrite EX, Ey. cbn [bind].
  unfold truediv. rewrite Hq.
  change (Qeq_bool 100.0 0) with false. cbn [bind].
  unfold add_industrial_noise, np_random_normal. rewrite Hscale.
  cbn [bind].
  set (noisy := zip_with _ raw _).
  assert (Hnoisy : length noisy = length raw).
  { subst noisy. rewrite length_zip_with, length_map, length_seq.
    apply Nat.min_id. }
  unfold reshape_1. rewrite preprocess_batch by (lia || discriminate).
  cbn [bind]. cbn [map].
  destruct (Hpls (length noisy) (preprocess_row K (length noisy) noisy))
    as [pred Epred].
  destruct (Hiso (length noisy) (preprocess_row K (length noisy) noisy))
    as [label Elab].
  rewrite Epred, Elab. cbn [bind].
  rewrite get_object. cbn [bind].
  unfold float_lt. rewrite Ht. cbn [bind].
  unfold py_mod.
  destruct (length (X_test A)) as [|n] eqn:El; [lia|]. cbn [bind].
  eexists. split; [reflexivity|].
  cbn [Payload.actual_pol Payload.noisy_spectrum Payload.timestamp
       Payload.inference_ms].
  apply getitem_Ok in EX, Ey.
  split; [apply Ey|]. split; [exists raw; split; [apply EX|exact Hnoisy]|].
  split; reflexivity.
Qed.

(** X14: a tick completes whenever nothing the code leaves unchecked goes
    wrong.  On serviceable artifacts, with the cursor inside the pool,
    an acceptable message (a short JSON object, noise level positive and
    at most 100, threshold a number) is answered: the tick sends a
    payload carrying the label stored at the cursor, a noisy spectrum as
    long as the pool spectrum at the cursor, the third clock reading as
    timestamp and the difference of the first two, in milliseconds, as
    latency; the next cursor is the cursor plus one modulo the pool
    size. *)
Theorem X14_acceptable_message_is_answered
  (K : Kernels) (A : Artifacts) (idx : nat) (data : string) (env : tick_env) :
  serviceable A ->
  acceptable_message data ->
  idx < length (X_test A) ->
  exists p : Payload.t,
    tick K A idx data env = Ok (p, (idx + 1) mod length (X_test A))
    /\ nth_error (y_test A) idx = Some (Payload.actual_pol p)
    /\ (exists raw, nth_error (X_test A) idx = Some raw
                    /\ length (Payload.noisy_spectrum p) = length raw)
    /\ Payload.timestamp p = clock env 2
    /\ Payload.inference_ms p = ((clock env 1 - clock env 0) * 1000)%Q.
Proof. apply tick_completes. Qed.

Lemma ideal_pool_serviceable : serviceable Ideal.pool5.
Proof.
  split; [vm_compute; lia|]. split; [reflexivity|].
  split; [repeat constructor|]. split.
  - intros n r. eexists. reflexivity.
  - intros n r. eexists. reflexivity.
Qed.

Lemma empty_object_acceptable : acceptable_message "{}".
Proof.
  exists [], 2.0%Q, 13.0%Q.
  split; [vm_compute; lia|].
  split; [vm_compute; reflexivity|].
  split; [reflexivity|]. split; [reflexivity|].
  split; [discriminate|reflexivity].
Qed.

Lemma X14_acceptable_message_is_answered_witness :
  exists p : Payload.t,
    tick Ideal.kernels Ideal.pool5 4 "{}" Ideal.env = Ok (p, 0)
    /\ nth_error (y_test Ideal.pool5) 4 = Some (Payload.actual_pol p)
    /\ (exists raw, nth_error (X_test Ideal.pool5) 4 = Some raw
                    /\ length (Payload.noisy_spectrum p) = length raw)
    /\ Payload.timestamp p = clock Ideal.env 2
    /\ Payload.inference_ms p
       = ((clock Ideal.env 1 - clock Ideal.env 0) * 1000)%Q.
Proof.
  apply (X14_acceptable_message_is_answered Ideal.kernels Ideal.pool5 4
           "{}" Ideal.env ideal_pool_serviceable empty_object_acceptable).
  vm_compute. lia.
Defined.

Lemma loop_acceptable (K : Kernels) (A : Artifacts) (m : ConnectionManager)
  (websocket : nat) (events : list event) :
  serviceable A ->
  Forall (fun ev => exists data env,
                      ev = Receive data env /\ acceptable_message data)
         events ->
  forall idx,
    idx < length (X_test A) ->
    final (loop K A m websocket idx events)
    = Active ((idx + length events) mod length (X_test A))
    /\ length (ticks (loop K A m websocket idx events)) = length events.
Proof.
  intros HA Hev.
  induction Hev as [|ev events (data & env & -> & Hdata) _ IH]; intros idx Hidx.
  - cbn. rewrite Nat.add_0_r, Nat.mod_small by exact Hidx. now split.
  - cbn [loop].
    destruct (tick_completes K A idx data env HA Hdata Hidx) as (p & -> & _).
    cbn [final ticks length].
    assert (Hnext : (idx + 1) mod length (X_test A) < length (X_test A))
      by (apply Nat.mod_upper_bound; lia).
    destruct (IH _ Hnext) as [-> ->].
    split; [|reflexivity].
    f_equal. rewrite Nat.Div0.add_mod_idemp_l. f_equal. lia.
Qed.

(** X15: a session of acceptable messages never ends by itself.  On
    serviceable artifacts, when every event is a text frame carrying an
    acceptable message (a short JSON object, noise level positive and at
    most 100, threshold a number), each one is answered: the session has
    sent as many payloads as it received messages, is still waiting for
    the next one with the cursor at that number modulo the pool size, and
    its connection is registered. *)
Theorem X15_acceptable_session_stays_active
  (K : Kernels) (A : Artifacts) (m : ConnectionManager) (websocket : nat)
  (events : list event) :
  serviceable A ->
  Forall (fun ev => exists data env,
                      ev = Receive data env /\ acceptable_message data)
         events ->
  final (websocket_endpoint K A m websocket events)
  = Active (length events mod length (X_test A))
  /\ length (ticks (websocket_endpoint K A m websocket events))
     = length events
  /\ manager (websocket_endpoint K A m websocket events)
     = connect m websocket.
Proof.
  intros HA Hev. unfold websocket_endpoint.
  destruct (loop_acceptable K A (connect m websocket) websocket events HA Hev
              0 (proj1 HA)) as [Hf Ht].
  cbn [Nat.add] in Hf.
  split; [exact Hf|]. split; [exact Ht|].
  pose proof (loop_manager K A (connect m websocket) websocket events 0) as H.
  rewrite Hf in H. exact H.
Qed.

Lemma X15_acceptable_session_stays_active_witness :
  final (websocket_endpoint Ideal.kernels Ideal.pool5 (mkManager []) 7
           (repeat (Receive "{}" Ideal.env) 7))
  = Active 2
  /\ length (ticks (websocket_endpoint Ideal.kernels Ideal.pool5
                      (mkManager []) 7 (repeat (Receive "{}" Ideal.env) 7)))
     = 7
  /\ manager (websocket_endpoint Ideal.kernels Ideal.pool5 (mkManager []) 7
                (repeat (Receive "{}" Ideal.env) 7))
     = mkManager [7].
Proof.
  apply (X15_acceptable_session_stays_active Ideal.kernels Ideal.pool5
           (mkManager []) 7 (repeat (Receive "{}" Ideal.env) 7)
           ideal_pool_serviceable).
  repeat constructor;
    exists "{}", Ideal.env; (split; [reflexivity|apply empty_object_acceptable]).
Defined.

Lemma scale_nonneg_percent (q : Q) :
  Qltb (q / 100.0) 0 = false -> (0 <= q)%Q.
Proof.
  intro H. apply Qltb_ge in H.
  setoid_replace q with ((q / 100.0) * 100.0)%Q by (field; discriminate).
  setoid_replace 0%Q with (0 * 100.0)%Q by ring.
  apply Qmult_le_compat_r; [exact H|discriminate].
Qed.

(** X16: what a sent payload implies.  Whenever a tick sends a payload,
    the message was a JSON object whose noise level (the noiseLevel
    member, else 2.0) is a number that is not negative, the cursor was
    inside the pool and inside the labels, the pool spectrum at the
    cursor has at least 15 samples, and the payload carries the label at
    the cursor and a noisy spectrum as long as the pool spectrum; the
    next cursor is the cursor plus one modulo the pool size.  No payload
    is ever sent for a negative noise level or for a shorter spectrum. *)
Theorem X16_sent_payload_implies_checked_inputs
  (K : Kernels) (A : Artifacts) (idx : nat) (data : string) (env : tick_env)
  (p : Payload.t) (idx' : nat) :
  tick K A idx data env = Ok (p, idx') ->
  exists (members : list (string * json)) (q : Q) (raw : list Q),
    json_loads data = Ok (JObject members)
    /\ as_number (match dict_lookup "noiseLevel" members with
                  | Some v => v
                  | None => JNumber 2.0
                  end) = Some q
    /\ (0 <= q)%Q
    /\ nth_error (X_test A) idx = Some raw
    /\ 15 <= length raw
    /\ length (Payload.noisy_spectrum p) = length raw
    /\ nth_error (y_test A) idx = Some (Payload.actual_pol p)
    /\ idx' = (idx + 1) mod length (X_test A).
Proof.
  intro H.
  destruct (tick_cursor _ _ _ _ _ _ _ H) as [_ Hnext].
  unfold tick in H. cbv zeta in H. bind_inv H.
  injection H as <- _.
  destruct a as [| | | | |members]; try discriminate E0.
  rewrite get_object in E0. injection E0 as <-.
  unfold truediv in E3.
  destruct (as_number _) as [q|] eqn:Eq; [|discriminate E3].
  change (Qeq_bool 100.0 0) with false in E3. injection E3 as <-.
  unfold add_industrial_noise, np_random_normal in E4.
  destruct (Qltb (q / 100.0) 0) eqn:Escale; [discriminate E4|].
  cbn [bind] in E4. injection E4 as <-.
  set (noisy := zip_with _ a1 _) in *.
  assert (Hnoisy : length noisy = length a1).
  { subst noisy. rewrite length_zip_with, length_map, length_seq.
    apply Nat.min_id. }
  destruct (preprocess_Ok_inv _ _ _ E5) as (n & rows & Hshape & Hn & _).
  unfold reshape_1 in Hshape. injection Hshape as <- _.
  apply getitem_Ok in E1, E2.
  exists members, q, a1.
  cbn [Payload.noisy_spectrum Payload.actual_pol].
  split; [reflexivity|]. split; [exact Eq|].
  split; [now apply scale_nonneg_percent|].
  split; [apply E1|]. split; [lia|]. split; [exact Hnoisy|].
  split; [apply E2|exact Hnext].
Qed.

Lemma X16_sent_payload_implies_checked_inputs_witness :
  exists (p : Payload.t) (members : list (string * json)) (q : Q)
         (raw : list Q),
    tick Ideal.kernels Ideal.pool5 3 Ideal.msg_supplied Ideal.env = Ok (p, 4)
    /\ json_loads Ideal.msg_supplied = Ok (JObject members)
    /\ as_number (match dict_lookup "noiseLevel" members with
                  | Some v => v
                  | None => JNumber 2.0
                  end) = Some q
    /\ (0 <= q)%Q
    /\ nth_error (X_test Ideal.pool5) 3 = Some raw
    /\ 15 <= length raw
    /\ length (Payload.noisy_spectrum p) = length raw
    /\ nth_error (y_test Ideal.pool5) 3 = Some (Payload.actual_pol p)
    /\ 4 = (3 + 1) mod length (X_test Ideal.pool5).
Proof.
  destruct (tick Ideal.kernels Ideal.pool5 3 Ideal.msg_supplied Ideal.env)
    as [[p i]|e] eqn:E; [|vm_compute in E; discriminate E].
  assert (Hi : i = 4) by (vm_compute in E; congruence).
  subst i.
  destruct (X16_sent_payload_implies_checked_inputs _ _ _ _ _ _ _ E)
    as (members & q & raw & H).
  exists p, members, q, raw. split; [reflexivity|exact H].
Defined.

(** *** The tick: messages the code does not check *)

(** X17: a message that is valid JSON but not an object (a number, a
    string, an array, true, false or null) ends the session: the first
    thing the tick does with it is call [get], which raises
    [AttributeError] whatever the cursor and the pool are; the handler
    does not catch it, nothing is sent and the connection stays
    registered. *)
Theorem X17_non_object_message_ends_session
  (K : Kernels) (A : Artifacts) (m : ConnectionManager) (websocket : nat)
  (idx : nat) (data : string) (env : tick_env) (rest : list event)
  (v : json) :
  json_loads data = Ok v ->
  (forall members, v <> JObject members) ->
  tick K A idx data env = Raise no_get_error
  /\ loop K A m websocket idx (Receive data env :: rest)
     = mkOutcome [] (Crashed no_get_error) m.
Proof.
  intros Hloads Hv.
  assert (Htick : tick K A idx data env = Raise no_get_error).
  { unfold tick. rewrite Hloads. cbn [bind].
    destruct v; try reflexivity. exfalso. eapply Hv. reflexivity. }
  split; [exact Htick|]. cbn [loop]. rewrite Htick. reflexivity.
Qed.

Lemma X17_non_object_message_ends_session_witness :
  tick Ideal.kernels Ideal.pool5 0 "[1, 2]" Ideal.env = Raise no_get_error
  /\ loop Ideal.kernels Ideal.pool5 (mkManager [7]) 7 0
       (Receive "[1, 2]" Ideal.env :: [Receive "{}" Ideal.env])
     = mkOutcome [] (Crashed no_get_error) (mkManager [7]).
Proof.
  apply (X17_non_object_message_ends_session Ideal.kernels Ideal.pool5
           (mkManager [7]) 7 0 "[1, 2]" Ideal.env [Receive "{}" Ideal.env]
           (JArray [JNumber 1; JNumber 2])).
  - vm_compute. reflexivity.
  - intros members H. discriminate H.
Defined.

(** X18: a noiseLevel that is not a number (a string, an array, an
    object or null) ends the session: with the cursor inside the pool
    and the labels, the division by 100.0 raises [TypeError]; nothing is
    sent and the exception leaves the handler. *)
Theorem X18_non_numeric_noise_level_ends_session
  (K : Kernels) (A : Artifacts) (m : ConnectionManager) (websocket : nat)
  (idx : nat) (data : string) (env : tick_env) (rest : list event)
  (members : list (string * json)) (v : json) :
  json_loads data = Ok (JObject members) ->
  dict_lookup "noiseLevel" members = Some v ->
  as_number v = None ->
  idx < length (X_test A) ->
  idx < length (y_test A) ->
  tick K A idx data env = Raise division_type_error
  /\ loop K A m websocket idx (Receive data env :: rest)
     = mkOutcome [] (Crashed division_type_error) m.
Proof.
  intros Hloads Hlookup Hv HX Hy.
  destruct (getitem_lt _ _ HX) as [spectrum EX].
  destruct (getitem_lt _ _ Hy) as [actual Ey].
  assert (Htick : tick K A idx data env = Raise division_type_error).
  { unfold tick. rewrite Hloads. cbn [bind].
    rewrite get_object, Hlookup. cbn [bind].
    rewrite EX, Ey. cbn [bind].
    unfold truediv. rewrite Hv. reflexivity. }
  split; [exact Htick|]. cbn [loop]. rewrite Htick. reflexivity.
Qed.

Lemma X18_non_numeric_noise_level_ends_session_witness :
  tick Ideal.kernels Ideal.pool5 1
    ("{" ++ quoted "noiseLevel" ++ ": null}") Ideal.env
  = Raise division_type_error
  /\ loop Ideal.kernels Ideal.pool5 (mkManager [7]) 7 1
       (Receive ("{" ++ quoted "noiseLevel" ++ ": null}") Ideal.env :: [])
     = mkOutcome [] (Crashed division_type_error) (mkManager [7]).
Proof.
  apply (X18_non_numeric_noise_level_ends_session Ideal.kernels Ideal.pool5
           (mkManager [7]) 7 1 ("{" ++ quoted "noiseLevel" ++ ": null}")
           Ideal.env [] [("noiseLevel", JNull)] JNull).
  - vm_compute. reflexivity.
  - reflexivity.
  - reflexivity.
  - vm_compute. lia.
  - vm_compute. lia.
Defined.




(** *** Report aggregation *)

Lemma count_below_le (bound : Q) (l : list Q) :
  count_below bound l <= length l.
Proof.
  induction l as [|p l IH]; cbn [count_below length]; [lia|].
  destruct (Qlt_le_dec p bound); lia.
Qed.

Lemma count_below_zero (bound : Q) (l : list Q) :
  count_below bound l = 0 <-> Forall (fun p => (bound <= p)%Q) l.
Proof.
  induction l as [|p l IH]; cbn [count_below].
  - split; [constructor|reflexivity].
  - destruct (Qlt_le_dec p bound) as [Hlt|Hge].
    + split; [discriminate|].
      intro H. inversion H as [|? ? Hp _]; subst.
      exfalso. exact (Qlt_not_le _ _ Hlt Hp).
    + cbn [Nat.add]. rewrite IH. split.
      * intro H. now constructor.
      * intro H. now inversion H.
Qed.

Lemma count_below_all (bound : Q) (l : list Q) :
  count_below bound l = length l <-> Forall (fun p => (p < bound)%Q) l.
Proof.
  induction l as [|p l IH]; cbn [count_below length].
  - split; [constructor|reflexivity].
  - pose proof (count_below_le bound l) as Hle.
    destruct (Qlt_le_dec p bound) as [Hlt|Hge].
    + split.
      * intro H. constructor; [exact Hlt|]. apply IH. lia.
      * intro H. inversion H; subst.
        cbn [Nat.add]. f_equal. now apply IH.
    + split; [lia|].
      intro H. inversion H as [|? ? Hp _]; subst.
      exfalso. exact (Qlt_not_le _ _ Hp Hge).
Qed.

(** X21: report generation never fails, whatever the three lists are and
    whether or not they have the same length, and its alert count is
    consistent with the values: it is at most the number of samples, it
    is zero exactly when no predicted value is below 13.0, and it equals
    the number of samples exactly when every predicted value is below
    13.0.  Timestamps and actual values have no influence on the
    figures. *)
Theorem X21_report_alert_count_consistent
  (ts actual ts' actual' predicted : list Q) :
  exists r : report_figures,
    generate_report (mkReportData ts predicted actual) = Ok r
    /\ generate_report (mkReportData ts' predicted actual') = Ok r
    /\ breaches r <= total_samples r
    /\ (breaches r = 0 <-> Forall (fun p => (13.0 <= p)%Q) predicted)
    /\ (breaches r = total_samples r
        <-> Forall (fun p => (p < 13.0)%Q) predicted).
Proof.
  unfold generate_report. cbn [predicted_pol].
  destruct predicted as [|p l].
  - cbn [bind]. eexists. split; [reflexivity|]. split; [reflexivity|].
    cbn. split; [lia|]. split; split; constructor.
  - unfold py_div. rewrite Qlen_nonzero. cbn [bind].
    eexists. split; [reflexivity|]. split; [reflexivity|].
    cbn [breaches total_samples].
    rewrite breaches_count_below.
    split; [apply count_below_le|].
    split; [apply count_below_zero|apply count_below_all].
Qed.

(* ===================================================================== *)
(** ** The component scan: the reported error *)
(* ===================================================================== *)

(** X22: what the scan reports when all fourteen cross validations
    return.  If no candidate has a score that is a number (every mean is
    nan, as for a cross validation without fold scores or with a failed
    fold), [lowest_mse] is still infinite and [best_n] is still 1.
    Otherwise [lowest_mse] (the figure printed as CV MSE) is the score of
    the selected number of components, which is in [1, 14]; no candidate
    has a lower score and every smaller candidate with a score has a
    strictly higher one; candidates whose score is nan are passed
    over. *)
Theorem X22_reported_cv_mse_is_score_of_selected
  (SK : Sklearn) (X_train : ndarray) (y_train : list Q)
  (score : nat -> option Q) :
  (forall i, 1 <= i <= 14 ->
     trainer.cv_score SK X_train y_train i = Ok (score i)) ->
  (trainer.scan SK X_train y_train = Ok (1, None)
   /\ forall j, 1 <= j <= 14 -> score j = None)
  \/ exists (k : nat) (t : Q),
       trainer.scan SK X_train y_train = Ok (k, Some t)
       /\ 1 <= k <= 14
       /\ score k = Some t
       /\ (forall j u, 1 <= j <= 14 -> score j = Some u -> (t <= u)%Q)
       /\ (forall j u, 1 <= j < k -> score j = Some u -> (t < u)%Q).
Proof.
  intro Hcv.
  assert (Hpure : trainer.scan SK X_train y_train
                  = Ok (fold_left (scan_by score) (seq 1 14) (1, None))).
  { unfold trainer.scan. apply scan_from_pure.
    intros i Hi. apply in_seq in Hi. apply Hcv. lia. }
  rewrite Hpure.
  destruct (scan_from_infinity score (seq 1 14) 1)
    as [[Hf Hnone]|(k & t & l1 & l2 & Hf & Hk & Hsplit & Hlt & Hle)].
  - left. split; [now rewrite Hf|].
    intros j Hj. apply Hnone. apply in_seq. lia.
  - right. destruct (seq_split _ _ _ _ _ Hsplit) as (H1 & Hrange & H2).
    exists k, t. split; [now rewrite Hf|]. split; [lia|].
    split; [exact Hk|]. split.
    + intros j u Hj Hu.
      assert (Hin : In j (seq 1 14)) by (apply in_seq; lia).
      rewrite Hsplit in Hin. apply in_app_or in Hin.
      destruct Hin as [Hin|[->|Hin]].
      * apply Qlt_le_weak. now apply (Hlt j).
      * assert (u = t) by congruence. subst u. apply Qle_refl.
      * now apply (Hle j).
    + intros j u Hj Hu.
      assert (Hin : In j (seq 1 14)) by (apply in_seq; lia).
      rewrite Hsplit in Hin. apply in_app_or in Hin.
      destruct Hin as [Hin|[->|Hin]].
      * now apply (Hlt j).
      * lia.
      * specialize (H2 j Hin). lia.
Qed.

Lemma X22_reported_cv_mse_is_score_of_selected_witness :
  seen_score reference_sklearn (training_rows 17) (training_labels 17) 14
  = None
  /\ exists (k : nat) (t : Q),
       trainer.scan reference_sklearn (training_rows 17) (training_labels 17)
       = Ok (k, Some t)
       /\ k = 3
       /\ (t == 0)%Q.
Proof.
  split; [vm_compute; reflexivity|].
  destruct (X22_reported_cv_mse_is_score_of_selected reference_sklearn
              (training_rows 17) (training_labels 17)
              (seen_score reference_sklearn
                 (training_rows 17) (training_labels 17)))
    as [[H _]|(k & t & H & _)].
  - intros i Hi.
    assert (E : i = 1 \/ i = 2 \/ i = 3 \/ i = 4 \/ i = 5 \/ i = 6 \/ i = 7
                \/ i = 8 \/ i = 9 \/ i = 10 \/ i = 11 \/ i = 12 \/ i = 13
                \/ i = 14) by lia.
    repeat (destruct E as [->|E]; [vm_compute; reflexivity|]).
    subst i. vm_compute. reflexivity.
  - vm_compute in H. discriminate H.
  - exists k, t. split; [exact H|].
    vm_compute in H. injection H as <- <-. split; reflexivity.
Defined.
